(** * FedEx international shipment splitter: cleaning, validation, reconciliation

    A shallow embedding of [fedex_csv_splitter_enhanced.py] and theorems about
    its field cleaners, country mapper, address validator, declared-value
    reconciliation and the [process] pipeline.

    Modelling conventions.
    - A Python [str] is a Rocq [string] of ASCII characters; the character
      classes used by [str.strip], [str.upper], [str.isalpha] and the
      regular expressions [\s] and [\d] are the ASCII ones.  Text outside
      ASCII is not covered: the characters 128 to 255 of [ascii] stand for
      no character of an input.
    - A pandas cell is [NA] (NaN / None), a string or a number.  A number is
      an integer or a float64 other than NaN.  Arithmetic is the one of the
      column types: int64 wraps around, float64 is IEEE 754 binary64 with
      rounding to nearest even, infinities and NaN ([SpecFloat] with 53 bits
      of precision).  The arithmetic of pandas on a column that holds a text
      is not modelled: there the reconciliation step is taken to raise.
    - Python's rendering of numbers ([str(x)] and [format(x, '.2f')]) is
      library behaviour and enters as two section variables.
    - The file system and the pandas readers are the [Env] of a run; the
      log records and the files written are its [World].

    The file has the embedding first (strings, cells, cleaners, country
    mapper, validator, data frames, the splitter and its steps), then the
    notions the statements use and the sample data, then the theorems. *)

From Stdlib Require Import Bool Arith List Lia.
From Stdlib Require Import Ascii String.
From Stdlib Require Import ZArith QArith Qround.
From Stdlib Require Import SpecFloat.
From Stdlib Require Import DecimalString.
Import ListNotations.

Open Scope string_scope.
Open Scope bool_scope.

(** ** Characters and strings *)

Module Py.

Definition code (c : ascii) : nat := nat_of_ascii c.

Definition between (lo hi n : nat) : bool := (lo <=? n)%nat && (n <=? hi)%nat.

(** [str.isspace] on one character; also the class [\s] of [re]. *)
Definition isspace (c : ascii) : bool :=
  between 9 13 (code c) || between 28 31 (code c) || (code c =? 32)%nat.

(** The class [\d] of [re]. *)
Definition isdigit (c : ascii) : bool := between 48 57 (code c).

(** [str.isupper], [str.islower] and [str.isalpha] on one ASCII character:
    the letters are A to Z and a to z. *)
Definition isupper (c : ascii) : bool := between 65 90 (code c).
Definition islower (c : ascii) : bool := between 97 122 (code c).
Definition isalpha_char (c : ascii) : bool := isupper c || islower c.

(** [str.upper] and [str.lower] on one ASCII character. *)
Definition upper_char (c : ascii) : ascii :=
  if islower c then ascii_of_nat (code c - 32) else c.

Definition lower_char (c : ascii) : ascii :=
  if isupper c then ascii_of_nat (code c + 32) else c.

Fixpoint smap (f : ascii -> ascii) (s : string) : string :=
  match s with
  | EmptyString => EmptyString
  | String c r => String (f c) (smap f r)
  end.

Fixpoint sfilter (p : ascii -> bool) (s : string) : string :=
  match s with
  | EmptyString => EmptyString
  | String c r => if p c then String c (sfilter p r) else sfilter p r
  end.

Fixpoint sforall (p : ascii -> bool) (s : string) : bool :=
  match s with
  | EmptyString => true
  | String c r => p c && sforall p r
  end.

Fixpoint scount (p : ascii -> bool) (s : string) : nat :=
  match s with
  | EmptyString => 0
  | String c r => (if p c then 1 else 0) + scount p r
  end.

Definition upper (s : string) : string := smap upper_char s.
Definition lower (s : string) : string := smap lower_char s.

(** [s.isalpha()]: every character is a letter and there is at least one. *)
Definition isalpha (s : string) : bool :=
  match s with
  | EmptyString => false
  | _ => sforall isalpha_char s
  end.

(** [s.replace(a, b)] for one-character [a] and [b]. *)
Definition replace_char (a b : ascii) (s : string) : string :=
  smap (fun c => if Ascii.eqb c a then b else c) s.

(** [s.replace(a, '')] for a one-character [a]. *)
Definition remove_char (a : ascii) (s : string) : string :=
  sfilter (fun c => negb (Ascii.eqb c a)) s.

Fixpoint lstrip (s : string) : string :=
  match s with
  | EmptyString => EmptyString
  | String c r => if isspace c then lstrip r else s
  end.

Fixpoint rstrip (s : string) : string :=
  match s with
  | EmptyString => EmptyString
  | String c r =>
      match rstrip r with
      | EmptyString => if isspace c then EmptyString else String c EmptyString
      | r' => String c r'
      end
  end.

(** [s.strip()] *)
Definition strip (s : string) : string := rstrip (lstrip s).

(** [re.sub(r'\s+', ' ', s)]: every maximal run of whitespace becomes one
    space.  [in_run] tells that the previous character was whitespace. *)
Fixpoint collapse_from (in_run : bool) (s : string) : string :=
  match s with
  | EmptyString => EmptyString
  | String c r =>
      if isspace c
      then if in_run then collapse_from true r
           else String " " (collapse_from true r)
      else String c (collapse_from false r)
  end.

Definition sub_spaces (s : string) : string := collapse_from false s.

(** [s[:n]] *)
Fixpoint prefix (n : nat) (s : string) : string :=
  match n, s with
  | S k, String c r => String c (prefix k r)
  | _, _ => EmptyString
  end.

(** [c * n] for a one-character string [c]. *)
Fixpoint repeat_char (c : ascii) (n : nat) : string :=
  match n with
  | O => EmptyString
  | S k => String c (repeat_char c k)
  end.

(** [str(n)] for a non-negative [int]. *)
Definition str_nat (n : nat) : string := NilZero.string_of_uint (Nat.to_uint n).

End Py.

(** ** Cells of a data frame *)

(** A float64 other than NaN: a signed zero, a signed infinity, or
    (-1)^s · m · 2^e. *)
Inductive real : Type :=
| Zero (s : bool)
| Inf (s : bool)
| Fin (s : bool) (m : positive) (e : Z).

(** A number: an integer (an int64 of an integer column, an [int] once it
    is taken out of its row) or a float. *)
Inductive number : Type :=
| Int (z : Z)
| Float (x : real).

Inductive cell : Type :=
| NA                (* NaN or None: what [pd.isna] recognises *)
| Str (s : string)
| Num (n : number).

Definition isna (v : cell) : bool :=
  match v with NA => true | _ => false end.

(** ** Numbers

    A [float] is a float64 as a computation yields it, NaN included; the
    operations are those of IEEE 754 binary64. *)

Definition float : Type := spec_float.

Definition prec : Z := 53.
Definition emax : Z := 1024.

Definition fmul (a b : float) : float := SFmul prec emax a b.
Definition fsub (a b : float) : float := SFsub prec emax a b.
Definition fdiv (a b : float) : float := SFdiv prec emax a b.
Definition fabs (a : float) : float := SFabs a.

(** [a > b], [a <= b] and [a == b]: false when one of the two is NaN. *)
Definition fgt (a b : float) : bool := SFltb b a.
Definition fle (a b : float) : bool := SFleb a b.
Definition feq (a b : float) : bool := SFeqb a b.

(** The float64 nearest to an integer, ties to even. *)
Definition float_of_int (z : Z) : float := binary_normalize prec emax z 0 false.

(** The int64 an integer wraps around to. *)
Definition int64 (z : Z) : Z := ((z + 2 ^ 63) mod 2 ^ 64 - 2 ^ 63)%Z.

Definition float_of_real (x : real) : float :=
  match x with
  | Zero s => S754_zero s
  | Inf s => S754_infinity s
  | Fin s m e => S754_finite s m e
  end.

Definition float_of_number (n : number) : float :=
  match n with
  | Int z => float_of_int z
  | Float x => float_of_real x
  end.

(** The cell that holds a float: NaN is the missing value. *)
Definition of_float (x : float) : cell :=
  match x with
  | S754_nan => NA
  | S754_zero s => Num (Float (Zero s))
  | S754_infinity s => Num (Float (Inf s))
  | S754_finite s m e => Num (Float (Fin s m e))
  end.

(** The integer a float equals, when it equals one. *)
Definition integer_of_real (x : real) : option Z :=
  match x with
  | Zero _ => Some 0%Z
  | Inf _ => None
  | Fin s m e =>
      let signed (z : Z) := if s then (- z)%Z else z in
      match e with
      | Zneg k =>
          if (Zpos m mod Z.pow_pos 2 k =? 0)%Z
          then Some (signed (Zpos m / Z.pow_pos 2 k)%Z)
          else None
      | _ => Some (signed (Zpos m * 2 ^ e)%Z)
      end
  end.

(** [a == b] on two numbers: Python compares an [int] with a [float] by
    their exact values. *)
Definition num_eqb (a b : number) : bool :=
  match a, b with
  | Int x, Int y => Z.eqb x y
  | Float x, Float y => feq (float_of_real x) (float_of_real y)
  | Int x, Float y | Float y, Int x =>
      match integer_of_real y with
      | Some z => Z.eqb x z
      | None => false
      end
  end.

(** [np.rint]: the nearest integer, ties to even, with the sign of its
    argument. *)
Definition rint (x : float) : float :=
  match x with
  | S754_finite s m (Zneg k) =>
      let d := Z.pow_pos 2 k in
      let q := (Zpos m / d)%Z in
      let n :=
        match (2 * (Zpos m mod d) ?= d)%Z with
        | Lt => q
        | Gt => (q + 1)%Z
        | Eq => if Z.even q then q else (q + 1)%Z
        end in
      binary_normalize prec emax (if s then (- n)%Z else n) 0 s
  | _ => x
  end.

(** numpy's [round(x, 2)] on a float64: [rint(x * 100) / 100]. *)
Definition round2 (x : float) : float :=
  fdiv (rint (fmul x (float_of_int 100))) (float_of_int 100).

Section Splitter.

(** [str(x)] of a numeric scalar and [format(x, '.2f')]. *)
Variable num_str : number -> string.
Variable fmt_2f : number -> string.

(** [str(v)] *)
Definition py_str (v : cell) : string :=
  match v with
  | NA => "nan"
  | Str s => s
  | Num n => num_str n
  end.

(** Truth value of a cell, as in [not country]: the empty string and the
    zeros are false. *)
Definition truthy (v : cell) : bool :=
  match v with
  | NA => true
  | Str s => negb (String.eqb s "")
  | Num (Int z) => negb (Z.eqb z 0)
  | Num (Float (Zero _)) => false
  | Num (Float _) => true
  end.

(** *** DataCleaner *)

Definition remove_commas (text : cell) : string :=
  if isna text then "" else Py.remove_char "," (py_str text).

Definition clean_text_field (text : cell) : string :=
  if isna text then ""
  else
    let text := py_str text in
    let text := Py.remove_char "," text in
    let text := Py.replace_char "013" " " (Py.replace_char "010" " " text) in
    let text := Py.replace_char "009" " " text in
    let text := Py.sub_spaces text in
    let text := Py.strip text in
    text.

(** [re.sub(r'[^\d+]', '', phone)] keeps the characters that are a digit
    or a plus sign. *)
Definition phone_char (c : ascii) : bool := Py.isdigit c || Ascii.eqb c "+".

Definition clean_phone_number (phone : cell) : string :=
  if isna phone then ""
  else Py.sfilter phone_char (py_str phone).

Definition clean_postal_code (postal : cell) : string :=
  if isna postal then ""
  else Py.sub_spaces (Py.strip (Py.upper (py_str postal))).

(** *** Logging

    The module-level [logger]: a record keeps the level and the message.
    Records go to the logging handlers only; they are no part of the
    splitter's [validation_errors] and [validation_warnings]. *)

Inductive level : Type := INFO | WARNING | ERROR.

Definition log_record : Type := (level * string)%type.

(** *** CountryCodeMapper *)

Definition COUNTRY_CODES : list (string * string) :=
  [ ("UNITED STATES", "US"); ("USA", "US"); ("U.S.A", "US"); ("U.S.", "US");
    ("CANADA", "CA"); ("MEXICO", "MX");
    ("UNITED KINGDOM", "GB"); ("UK", "GB"); ("GREAT BRITAIN", "GB"); ("ENGLAND", "GB");
    ("SCOTLAND", "GB"); ("WALES", "GB"); ("NORTHERN IRELAND", "GB");
    ("FRANCE", "FR"); ("GERMANY", "DE"); ("SPAIN", "ES"); ("ITALY", "IT");
    ("NETHERLANDS", "NL"); ("HOLLAND", "NL"); ("BELGIUM", "BE"); ("SWITZERLAND", "CH");
    ("AUSTRIA", "AT"); ("SWEDEN", "SE"); ("NORWAY", "NO"); ("DENMARK", "DK");
    ("FINLAND", "FI"); ("IRELAND", "IE"); ("PORTUGAL", "PT"); ("GREECE", "GR");
    ("POLAND", "PL"); ("CZECH REPUBLIC", "CZ"); ("HUNGARY", "HU"); ("ROMANIA", "RO");
    ("AUSTRALIA", "AU"); ("NEW ZEALAND", "NZ"); ("JAPAN", "JP"); ("CHINA", "CN");
    ("SOUTH KOREA", "KR"); ("KOREA", "KR"); ("SINGAPORE", "SG"); ("HONG KONG", "HK");
    ("TAIWAN", "TW"); ("THAILAND", "TH"); ("MALAYSIA", "MY"); ("INDONESIA", "ID");
    ("PHILIPPINES", "PH"); ("VIETNAM", "VN"); ("INDIA", "IN");
    ("ISRAEL", "IL"); ("SAUDI ARABIA", "SA"); ("UAE", "AE");
    ("UNITED ARAB EMIRATES", "AE"); ("DUBAI", "AE");
    ("BRAZIL", "BR"); ("ARGENTINA", "AR"); ("CHILE", "CL"); ("COLOMBIA", "CO");
    ("PERU", "PE"); ("VENEZUELA", "VE");
    ("SOUTH AFRICA", "ZA"); ("EGYPT", "EG"); ("MOROCCO", "MA"); ("KENYA", "KE") ].

(** [d[key]] when [key in d], on the dict written as its list of items
    (the keys of [COUNTRY_CODES] are pairwise distinct). *)
Fixpoint dict_get (d : list (string * string)) (key : string) : option string :=
  match d with
  | [] => None
  | (k, v) :: rest => if String.eqb key k then Some v else dict_get rest key
  end.

(** Returns the code together with the records it sends to the logger. *)
Definition standardize_country (country : cell) : string * list log_record :=
  if isna country || negb (truthy country) then
    ("XX", [(WARNING, "Empty country field detected")])
  else
    let country_clean := Py.upper (Py.strip (py_str country)) in
    if (String.length country_clean =? 2)%nat && Py.isalpha country_clean then
      (country_clean, [])
    else
      match dict_get COUNTRY_CODES country_clean with
      | Some code => (code, [])
      | None =>
          ((if (2 <=? String.length country_clean)%nat
            then Py.prefix 2 country_clean else "XX"),
           [(WARNING, "Unknown country format: '" ++ py_str country ++ "' - using as-is")])
      end.

(** *** AddressValidator *)

(** A [pd.Series] holding one row: the column labels with their values. *)
Definition Series : Type := list (string * cell).

(** [row.get(name)]: the value under the label, [None] when there is none. *)
Fixpoint series_get (row : Series) (name : string) : cell :=
  match row with
  | [] => NA
  | (k, v) :: rest => if String.eqb k name then v else series_get rest name
  end.

(** [pd.isna(value) or str(value).strip() == ""] *)
Definition is_blank (value : cell) : bool :=
  isna value || String.eqb (Py.strip (py_str value)) "".

Definition validate_required_fields (row : Series) (field_name : string)
  : bool * string :=
  let value := series_get row field_name in
  if is_blank value then (false, "Missing required field: " ++ field_name)
  else (true, "").

Definition required_fields : list string :=
  [ "SHIP TO ATTENTION (required)";
    "SHIP TO ADDRESS LINE 1 (required)";
    "CITY (required)";
    "COUNTRY (required)";
    "POSTAL CODE (required)" ].

Definition phone_field : string := "RECIPIENT PHONE # (required)".

(** The [for field in required_fields] loop, appending to [errors]. *)
Fixpoint check_required (row : Series) (ref_num : cell) (fields : list string)
    (errors : list string) : list string :=
  match fields with
  | [] => errors
  | field :: rest =>
      let '(is_valid, error) := validate_required_fields row field in
      check_required row ref_num rest
        (if is_valid then errors
         else app errors ["Ref#" ++ py_str ref_num ++ ": " ++ error])
  end.

Definition validate_address (row : Series) (ref_num : cell) : bool * list string :=
  let errors := check_required row ref_num required_fields [] in
  let phone := series_get row phone_field in
  let errors :=
    if is_blank phone
    then app errors ["Ref#" ++ py_str ref_num ++ ": Missing phone number"]
    else errors in
  (match errors with [] => true | _ => false end, errors).

(** *** Data frames

    A [pd.DataFrame] with the default [RangeIndex]: the labelled columns in
    order, each holding one cell per row. *)

Record DataFrame : Type := mkDataFrame {
  nrows : nat;
  columns : list (string * list cell)
}.

Definition column_names (d : DataFrame) : list string := map fst (columns d).

(** [name in d.columns] *)
Definition has_column (d : DataFrame) (name : string) : bool :=
  existsb (String.eqb name) (column_names d).

Fixpoint lookup_column (cols : list (string * list cell)) (name : string)
  : option (list cell) :=
  match cols with
  | [] => None
  | (k, vs) :: rest => if String.eqb k name then Some vs else lookup_column rest name
  end.

(** [d[name]]; [None] stands for the [KeyError]. *)
Definition get_column (d : DataFrame) (name : string) : option (list cell) :=
  lookup_column (columns d) name.

Fixpoint replace_column (cols : list (string * list cell)) (name : string)
    (vs : list cell) : list (string * list cell) :=
  match cols with
  | [] => []
  | (k, old) :: rest =>
      if String.eqb k name then (k, vs) :: rest
      else (k, old) :: replace_column rest name vs
  end.

(** [d[name] = vs]: in place when the label exists, a new last column
    otherwise. *)
Definition set_column (d : DataFrame) (name : string) (vs : list cell) : DataFrame :=
  {| nrows := nrows d;
     columns := if has_column d name then replace_column (columns d) name vs
                else app (columns d) [(name, vs)] |}.

(** [if col in d.columns: d[col] = d[col].apply(f)] *)
Definition apply_column (f : cell -> cell) (d : DataFrame) (col : string) : DataFrame :=
  match get_column d col with
  | Some vs => set_column d col (map f vs)
  | None => d
  end.

(** [d.drop(columns=names)]; the step below drops columns it has just set,
    so the [KeyError] of a missing label does not arise. *)
Definition drop_columns (d : DataFrame) (names : list string) : DataFrame :=
  {| nrows := nrows d;
     columns := filter (fun kv => negb (existsb (String.eqb (fst kv)) names))
                       (columns d) |}.

(** [l[a:b]] for [0 <= a <= b]. *)
Definition slice {A : Type} (a b : nat) (l : list A) : list A :=
  firstn (b - a) (skipn a l).

(** [d.iloc[:, a:b].copy()] *)
Definition iloc_columns (a b : nat) (d : DataFrame) : DataFrame :=
  {| nrows := nrows d; columns := slice a b (columns d) |}.

(** [d.iloc[i]] *)
Definition row_at (d : DataFrame) (i : nat) : Series :=
  map (fun kv => (fst kv, nth i (snd kv) NA)) (columns d).

(** Every column holds one cell per row. *)
Definition well_formed (d : DataFrame) : Prop :=
  Forall (fun kv => List.length (snd kv) = nrows d) (columns d).

(** [a == b] on two cells: a missing value equals nothing. *)
Definition cell_eq (a b : cell) : bool :=
  match a, b with
  | Str x, Str y => String.eqb x y
  | Num x, Num y => num_eqb x y
  | _, _ => false
  end.

(** Identity of values for [unique()] and [nunique()], where all missing
    values count as one. *)
Definition same_value (a b : cell) : bool :=
  match a, b with
  | NA, NA => true
  | _, _ => cell_eq a b
  end.

(** [series.unique()]: the distinct values in order of first appearance. *)
Fixpoint unique_from (seen : list cell) (vs : list cell) : list cell :=
  match vs with
  | [] => []
  | v :: rest =>
      if existsb (same_value v) seen then unique_from seen rest
      else v :: unique_from (v :: seen) rest
  end.

Definition unique (vs : list cell) : list cell := unique_from [] vs.

(** [series.nunique()]: missing values are not counted. *)
Definition nunique (vs : list cell) : nat :=
  List.length (filter (fun v => negb (isna v)) (unique vs)).

(** Position of the first element satisfying [p]. *)
Fixpoint first_index {A : Type} (p : A -> bool) (l : list A) : option nat :=
  match l with
  | [] => None
  | x :: rest => if p x then Some 0%nat else option_map S (first_index p rest)
  end.

(** *** Numeric columns

    pandas holds a column of numbers as int64 when every row holds an
    integer, and as float64 otherwise: a missing value is then NaN and an
    integer stands for its float.  The operators work on whole columns and
    follow numpy: two int64 columns give an int64 column, any other pair a
    float64 column. *)

Inductive column : Type :=
| Int64 (zs : list Z)
| Float64 (xs : list float).

Definition to_float (v : cell) : option float :=
  match v with
  | NA => Some S754_nan
  | Num n => Some (float_of_number n)
  | Str _ => None
  end.

(** The column as floats; [None] when it holds a string. *)
Fixpoint as_floats (vs : list cell) : option (list float) :=
  match vs with
  | [] => Some []
  | v :: rest =>
      match to_float v, as_floats rest with
      | Some x, Some xs => Some (x :: xs)
      | _, _ => None
      end
  end.

(** The column as integers; [None] unless every row holds one. *)
Fixpoint as_ints (vs : list cell) : option (list Z) :=
  match vs with
  | [] => Some []
  | Num (Int z) :: rest => option_map (cons z) (as_ints rest)
  | _ :: _ => None
  end.

(** The column as pandas holds it; [None] when it holds a string, on which
    the arithmetic of the reconciliation step is taken to raise. *)
Definition as_column (vs : list cell) : option column :=
  match as_ints vs with
  | Some zs => Some (Int64 zs)
  | None => option_map Float64 (as_floats vs)
  end.

Definition floats (c : column) : list float :=
  match c with
  | Int64 zs => map float_of_int zs
  | Float64 xs => xs
  end.

(** The cells of a column. *)
Definition cells (c : column) : list cell :=
  match c with
  | Int64 zs => map (fun z => Num (Int z)) zs
  | Float64 xs => map of_float xs
  end.

Fixpoint zip_with {A B C : Type} (f : A -> B -> C) (l : list A) (m : list B) : list C :=
  match l, m with
  | x :: l', y :: m' => f x y :: zip_with f l' m'
  | _, _ => []
  end.

(** [a * b] *)
Definition times (a b : column) : column :=
  match a, b with
  | Int64 x, Int64 y => Int64 (zip_with (fun p q => int64 (p * q)) x y)
  | _, _ => Float64 (zip_with fmul (floats a) (floats b))
  end.

(** [a - b] *)
Definition minus (a b : column) : column :=
  match a, b with
  | Int64 x, Int64 y => Int64 (zip_with (fun p q => int64 (p - q)) x y)
  | _, _ => Float64 (zip_with fsub (floats a) (floats b))
  end.

(** [a.abs()] *)
Definition absolute (a : column) : column :=
  match a with
  | Int64 x => Int64 (map (fun z => int64 (Z.abs z)) x)
  | Float64 x => Float64 (map fabs x)
  end.

(** [a > t] for a Python float [t]: an int64 column is compared as
    float64. *)
Definition greater (a : column) (t : float) : list bool :=
  map (fun x => fgt x t) (floats a).

(** [a.round(2)]: an int64 column is returned as it is. *)
Definition round_column (a : column) : column :=
  match a with
  | Int64 x => Int64 x
  | Float64 x => Float64 (map round2 x)
  end.

(** *** Paths and the environment of a run *)

(** A [pathlib.Path]: its text, the text of its parent directory and its
    final component. *)
Record Path : Type := mkPath {
  path_str : string;
  parent : string;
  name : string
}.

(** [s.rfind(c)] *)
Fixpoint rfind (c : ascii) (s : string) : option nat :=
  match s with
  | EmptyString => None
  | String a r =>
      match rfind c r with
      | Some i => Some (S i)
      | None => if Ascii.eqb a c then Some 0%nat else None
      end
  end.

(** [path.suffix]: the final component from its last dot on, when that dot
    is neither its first nor its last character. *)
Definition suffix (p : Path) : string :=
  let n := name p in
  match rfind "." n with
  | Some i =>
      if (0 <? i)%nat && (i <? String.length n - 1)%nat
      then substring i (String.length n - i) n
      else ""
  | None => ""
  end.

(** [dir / file] *)
Definition child (dir file : string) : Path :=
  {| path_str := dir ++ "/" ++ file; parent := dir; name := file |}.

(** What a file holds: a table handed to [to_csv] with its [float_format],
    or text. *)
Inductive content : Type :=
| CsvFile (table : DataFrame) (float_format : option string)
| TextFile (text : string).

(** The part of the world a run reads: whether a path exists, what the
    pandas readers return for it ([None]: they raise), whether a directory
    can be created and a file opened for writing. *)
Record Env : Type := mkEnv {
  path_exists : Path -> bool;
  read_csv : Path -> option DataFrame;
  read_excel : Path -> option DataFrame;
  mkdir : string -> bool;
  writable : Path -> bool
}.

(** What a run leaves behind: the log records and the files written, both
    in order.  In the records of the [except] handlers the text of the
    exception, which follows the colon, is left out. *)
Record World : Type := mkWorld {
  log : list log_record;
  files : list (Path * content)
}.

Definition emit (l : level) (message : string) (w : World) : World :=
  {| log := app (log w) [(l, message)]; files := files w |}.

Definition emit_all (records : list log_record) (w : World) : World :=
  {| log := app (log w) records; files := files w |}.

Definition write_file (p : Path) (c : content) (w : World) : World :=
  {| log := log w; files := app (files w) [(p, c)] |}.

(** *** FedExCSVSplitterEnhanced *)

Record Splitter : Type := mkSplitter {
  input_file : Path;
  df : option DataFrame;
  recipient_df : option DataFrame;
  commodity_df : option DataFrame;
  validation_errors : list string;
  validation_warnings : list string
}.

(** [__init__] *)
Definition new_splitter (input_file : Path) : Splitter :=
  {| input_file := input_file; df := None; recipient_df := None;
     commodity_df := None; validation_errors := []; validation_warnings := [] |}.

Definition set_df (s : Splitter) (d : DataFrame) : Splitter :=
  {| input_file := input_file s; df := Some d; recipient_df := recipient_df s;
     commodity_df := commodity_df s; validation_errors := validation_errors s;
     validation_warnings := validation_warnings s |}.

Definition set_split (s : Splitter) (r c : DataFrame) : Splitter :=
  {| input_file := input_file s; df := df s; recipient_df := Some r;
     commodity_df := Some c; validation_errors := validation_errors s;
     validation_warnings := validation_warnings s |}.

Definition set_commodity (s : Splitter) (c : DataFrame) : Splitter :=
  {| input_file := input_file s; df := df s; recipient_df := recipient_df s;
     commodity_df := Some c; validation_errors := validation_errors s;
     validation_warnings := validation_warnings s |}.

Definition set_errors (s : Splitter) (errors : list string) : Splitter :=
  {| input_file := input_file s; df := df s; recipient_df := recipient_df s;
     commodity_df := commodity_df s; validation_errors := errors;
     validation_warnings := validation_warnings s |}.

Definition add_warnings (s : Splitter) (warnings : list string) : Splitter :=
  {| input_file := input_file s; df := df s; recipient_df := recipient_df s;
     commodity_df := commodity_df s; validation_errors := validation_errors s;
     validation_warnings := app (validation_warnings s) warnings |}.

Definition RECIPIENT_COLS_START : nat := 0.
Definition RECIPIENT_COLS_END : nat := 21.
Definition COMMODITY_COLS_START : nat := 21.
Definition COMMODITY_COLS_END : nat := 31.

Definition OUTPUT_RECIPIENT_FILENAME : string := "IntFedExRec.csv".
Definition OUTPUT_COMMODITY_FILENAME : string := "IntFedExCom.csv".
Definition OUTPUT_VALIDATION_REPORT : string := "validation_report.txt".

Definition ref_col : string := "REFERENCE # (Recipient 1, 2, etc.)".
Definition qty_col : string := "QUANTITY (required)".
Definition price_col : string := "UNIT PRICE (required)".
Definition value_col : string := "DECLARED VALUE (required)".
Definition country_col : string := "COUNTRY (required)".
Definition phone_col : string := "RECIPIENT PHONE # (required)".

Definition newline : string := String "010" EmptyString.
Definition rule : string := Py.repeat_char "=" 70.
Definition dashes : string := Py.repeat_char "-" 70.

Definition valid_extensions : list string := [".xlsx"; ".xls"; ".csv"].

Definition validate_input_file (env : Env) (s : Splitter) (w : World) : bool * World :=
  if negb (path_exists env (input_file s)) then
    (false, emit ERROR ("Input file does not exist: " ++ path_str (input_file s)) w)
  else if negb (existsb (String.eqb (Py.lower (suffix (input_file s)))) valid_extensions) then
    (false, emit ERROR ("Unsupported file format: " ++ suffix (input_file s)) w)
  else
    (true, emit INFO ("✓ Input file validated: " ++ path_str (input_file s)) w).

Definition load_data (env : Env) (s : Splitter) (w : World)
  : bool * Splitter * World :=
  let loaded :=
    if String.eqb (Py.lower (suffix (input_file s))) ".csv"
    then read_csv env (input_file s)
    else read_excel env (input_file s) in
  match loaded with
  | Some d =>
      (true, set_df s d,
       emit INFO ("✓ Data loaded: " ++ Py.str_nat (nrows d) ++ " rows, "
                  ++ Py.str_nat (List.length (columns d)) ++ " columns") w)
  | None => (false, s, emit ERROR "Failed to load file: " w)
  end.

Definition text_columns : list string :=
  [ "SHIP TO ATTENTION (required)";
    "RECIPIENT EMAIL (if applicable)";
    "COMPANY NAME (if applicable)";
    "SHIP TO ADDRESS LINE 1 (required)";
    "SHIP TO ADDRESS LINE 2 (if applicable)";
    "CITY (required)";
    "STATE / PROVINCE (if applicable)";
    "BILLING - 3RD PARTY COMPANY NAME (required)";
    "BILLING - 3RD PARTY ADDRESS 1 (required)";
    "BILLING - 3RD PARTY ADDRESS 2 (if applicable)";
    "BILLING - 3RD PARTY CITY (required)";
    "ITEM DESCRIPTION (required)";
    "STYLE # (required)" ].

Definition postal_cols : list string :=
  [ "POSTAL CODE (required)"; "BILLING - 3RD PARTY POSTAL CODE (required)" ].

(** The records of the "Log conversions" loop: one for every row whose
    country cell differs from its standardized code. *)
Fixpoint conversion_records (original : list cell) (codes : list string)
  : list log_record :=
  match original, codes with
  | v :: original', code :: codes' =>
      let rest := conversion_records original' codes' in
      if cell_eq v (Str code) then rest
      else (INFO, "  Country standardized: '" ++ py_str v ++ "' → '" ++ code ++ "'") :: rest
  | _, _ => []
  end.

Definition clean_data (s : Splitter) (w : World) : bool * Splitter * World :=
  let w := emit INFO "Cleaning and standardizing data..." w in
  match df s with
  | None => (false, s, emit ERROR "Failed to clean data: " w)
  | Some d =>
      let d := fold_left (apply_column (fun v => Str (clean_text_field v))) text_columns d in
      let d := apply_column (fun v => Str (clean_phone_number v)) d phone_col in
      let d := fold_left (apply_column (fun v => Str (clean_postal_code v))) postal_cols d in
      let '(d, w) :=
        match get_column d country_col with
        | None => (d, w)
        | Some original_countries =>
            let results := map standardize_country original_countries in
            let w := emit_all (List.concat (map snd results)) w in
            let codes := map fst results in
            (set_column d country_col (map Str codes),
             emit_all (conversion_records original_countries codes) w)
        end in
      (true, set_df s d, emit INFO "✓ Data cleaning complete" w)
  end.

(** [tolerance = 0.01]: the float64 of that numeral,
    0x1.47ae147ae147bp-7. *)
Definition tolerance : float := S754_finite false 5764607523034235 (-59).

(** Positions of the rows whose flag is set, counting from [idx]. *)
Fixpoint flagged (idx : nat) (flags : list bool) : list nat :=
  match flags with
  | [] => []
  | b :: rest => if b then idx :: flagged (S idx) rest else flagged (S idx) rest
  end.

(** [f"{x:.2f}"] of a value taken from a numeric column. *)
Definition fmt_float (x : cell) : string :=
  match x with
  | Num n => fmt_2f n
  | NA => "nan"
  | Str _ => ""   (* no text gets here: a column with a text is no [column] *)
  end.

Definition correction_warning (ref : cell) (idx : nat) (old_val new_val : cell)
  : string :=
  "Ref#" ++ py_str ref ++ " Row" ++ Py.str_nat (idx + 2)
    ++ ": Declared value corrected " ++ fmt_float old_val ++ " → " ++ fmt_float new_val.

(** The column [_value_mismatch]. *)
Definition value_mismatch (declared calculated : column) : list bool :=
  greater (absolute (minus declared calculated)) tolerance.

Definition scratch_columns : list string := ["_calculated_value"; "_value_mismatch"].

(** The scratch columns [_calculated_value] and [_value_mismatch] live in
    local values here; the source adds them to the frame and drops them
    before it returns.  A run that raises returns [false] and its frame is
    not looked at again: the model leaves it as it was. *)
Definition calculate_declared_values (s : Splitter) (w : World)
  : bool * Splitter * World :=
  let w := emit INFO "Calculating declared values..." w in
  let done := "✓ Declared values validated and corrected" in
  let failed := "Failed to calculate declared values: " in
  match df s with
  | None => (false, s, emit ERROR failed w)
  | Some d =>
      match get_column d qty_col, get_column d price_col, get_column d value_col with
      | Some qty, Some price, Some value =>
          match as_column qty, as_column price, as_column value with
          | Some quantity, Some unit_price, Some declared =>
              let calculated := times quantity unit_price in
              let mismatches := flagged 0 (value_mismatch declared calculated) in
              match mismatches with
              | [] => (true, set_df s (drop_columns d scratch_columns), emit INFO done w)
              | _ :: _ =>
                  let w := emit WARNING
                    ("Found " ++ Py.str_nat (List.length mismatches)
                     ++ " rows with incorrect declared values - fixing...") w in
                  match get_column d ref_col with
                  | None => (false, s, emit ERROR failed w)
                  | Some refs =>
                      let warnings :=
                        map (fun idx =>
                               correction_warning (nth idx refs NA) idx
                                 (nth idx (cells declared) NA)
                                 (nth idx (cells calculated) NA))
                            mismatches in
                      let d := set_column d value_col (cells calculated) in
                      (true,
                       set_df (add_warnings s warnings) (drop_columns d scratch_columns),
                       emit INFO done w)
                  end
              end
          | _, _, _ => (false, s, emit ERROR failed w)
          end
      | _, _, _ => (false, s, emit ERROR failed w)
      end
  end.

(** The loop over [unique_refs]; [false] when [ref_rows.iloc[0]] raises
    because no row equals [ref_num], which is the case of a missing
    reference number. *)
Fixpoint validate_refs (d : DataFrame) (refs : list cell) (todo : list cell)
    (errors : list string) : bool * list string :=
  match todo with
  | [] => (true, errors)
  | ref_num :: rest =>
      match first_index (fun v => cell_eq v ref_num) refs with
      | None => (false, errors)
      | Some i =>
          let '(is_valid, errs) := validate_address (row_at d i) ref_num in
          validate_refs d refs rest (if is_valid then errors else app errors errs)
      end
  end.

Definition validate_addresses (s : Splitter) (w : World) : bool * Splitter * World :=
  let w := emit INFO "Validating recipient addresses..." w in
  let failed := "Failed to validate addresses: " in
  match df s with
  | None => (false, s, emit ERROR failed w)
  | Some d =>
      match get_column d ref_col with
      | None => (false, s, emit ERROR failed w)
      | Some refs =>
          let '(ok, errors) := validate_refs d refs (unique refs) (validation_errors s) in
          let s := set_errors s errors in
          if ok then
            (true, s,
             match errors with
             | [] => emit INFO "✓ All addresses validated successfully" w
             | _ => emit WARNING ("⚠ Found " ++ Py.str_nat (List.length errors)
                                  ++ " address validation errors") w
             end)
          else (false, s, emit ERROR failed w)
      end
  end.

Definition split_data (s : Splitter) (w : World) : bool * Splitter * World :=
  match df s with
  | None => (false, s, emit ERROR "Failed to split data: " w)
  | Some d =>
      let r := iloc_columns RECIPIENT_COLS_START RECIPIENT_COLS_END d in
      let w := emit INFO ("✓ Extracted recipient data: "
                          ++ Py.str_nat (List.length (columns r)) ++ " columns") w in
      let c := iloc_columns COMMODITY_COLS_START COMMODITY_COLS_END d in
      let w := emit INFO ("✓ Extracted commodity data: "
                          ++ Py.str_nat (List.length (columns c)) ++ " columns") w in
      (true, set_split s r c, w)
  end.

Definition numeric_cols : list string := [price_col; value_col].

(** [for col in cols: if col in c.columns: c[col] = c[col].round(2)].
    [Series.round] of pandas 2 returns a column that is not numeric as it
    is. *)
Fixpoint round_columns (c : DataFrame) (cols : list string) : DataFrame :=
  match cols with
  | [] => c
  | col :: rest =>
      match get_column c col with
      | None => round_columns c rest
      | Some vs =>
          match as_column vs with
          | Some a => round_columns (set_column c col (cells (round_column a))) rest
          | None => round_columns c rest
          end
      end
  end.

Definition issue_lines (mark : string) (issues : list string) : string :=
  String.concat "" (map (fun issue => "  " ++ mark ++ " " ++ issue ++ newline) issues).

(** Opens the report, writes it and logs the summary.  [false] when an
    exception leaves the function; the file then holds what was written
    before. *)
Definition save_validation_report (env : Env) (s : Splitter) (report_path : Path)
    (w : World) : bool * World :=
  if negb (writable env report_path) then (false, w)
  else
    let text :=
      rule ++ newline ++ "FedEx CSV Splitter - Validation Report" ++ newline
      ++ rule ++ newline ++ newline
      ++ "Input File: " ++ path_str (input_file s) ++ newline in
    match df s with
    | None => (false, write_file report_path (TextFile text) w)
    | Some d =>
        let text := text ++ "Total Rows Processed: " ++ Py.str_nat (nrows d) ++ newline in
        match get_column d ref_col with
        | None => (false, write_file report_path (TextFile text) w)
        | Some refs =>
            let text :=
              text ++ "Unique Recipients: " ++ Py.str_nat (nunique refs)
              ++ newline ++ newline in
            let text :=
              match validation_errors s with
              | [] => text ++ "✓ No validation errors found" ++ newline ++ newline
              | errors =>
                  text ++ "ERRORS (" ++ Py.str_nat (List.length errors) ++ "):" ++ newline
                  ++ dashes ++ newline ++ issue_lines "✗" errors ++ newline
              end in
            let text :=
              match validation_warnings s with
              | [] => text ++ "✓ No warnings" ++ newline ++ newline
              | warnings =>
                  text ++ "WARNINGS (" ++ Py.str_nat (List.length warnings) ++ "):" ++ newline
                  ++ dashes ++ newline ++ issue_lines "⚠" warnings ++ newline
              end in
            let text := text ++ rule ++ newline ++ "END OF REPORT" ++ newline in
            let w := write_file report_path (TextFile text) w in
            let w := emit INFO ("✓ Validation report saved: " ++ path_str report_path) w in
            let w :=
              match validation_errors s with
              | [] => w
              | errors =>
                  emit WARNING ("⚠ " ++ Py.str_nat (List.length errors)
                                ++ " ERRORS found - check validation_report.txt") w
              end in
            let w :=
              match validation_warnings s with
              | [] => w
              | warnings =>
                  emit INFO ("ℹ " ++ Py.str_nat (List.length warnings)
                             ++ " warnings - check validation_report.txt") w
              end in
            (true, w)
        end
    end.

Definition save_csvs (env : Env) (output_dir : option string) (s : Splitter)
    (w : World) : (bool * string * string) * Splitter * World :=
  let failed (s : Splitter) (w : World) :=
    ((false, "", ""), s, emit ERROR "Failed to save files: " w) in
  let dir_made := match output_dir with None => true | Some o => mkdir env o end in
  let output_dir :=
    match output_dir with None => parent (input_file s) | Some o => o end in
  if negb dir_made then failed s w
  else
    let recipient_path := child output_dir OUTPUT_RECIPIENT_FILENAME in
    let commodity_path := child output_dir OUTPUT_COMMODITY_FILENAME in
    let report_path := child output_dir OUTPUT_VALIDATION_REPORT in
    match commodity_df s with
    | None => failed s w
    | Some c =>
        let c := round_columns c numeric_cols in
        let s := set_commodity s c in
        match recipient_df s with
        | None => failed s w
        | Some r =>
            if negb (writable env recipient_path) then failed s w
            else
              let w := write_file recipient_path (CsvFile r None) w in
              let w := emit INFO ("✓ Saved: " ++ path_str recipient_path) w in
              if negb (writable env commodity_path) then failed s w
              else
                let w := write_file commodity_path (CsvFile c (Some "%.2f")) w in
                let w := emit INFO ("✓ Saved: " ++ path_str commodity_path) w in
                let '(reported, w) := save_validation_report env s report_path w in
                if reported
                then ((true, path_str recipient_path, path_str commodity_path), s, w)
                else failed s w
        end
    end.

Definition process (env : Env) (output_dir : option string) (s : Splitter)
    (w : World) : bool * Splitter * World :=
  let w := emit INFO rule w in
  let w := emit INFO "Enhanced FedEx International CSV Splitter v2.0" w in
  let w := emit INFO rule w in
  let '(ok, w) := validate_input_file env s w in
  if negb ok then (false, s, w) else
  let '(ok, s, w) := load_data env s w in
  if negb ok then (false, s, w) else
  let '(ok, s, w) := clean_data s w in
  if negb ok then (false, s, w) else
  let '(ok, s, w) := calculate_declared_values s w in
  if negb ok then (false, s, w) else
  let '(ok, s, w) := validate_addresses s w in
  if negb ok then (false, s, w) else
  let '(ok, s, w) := split_data s w in
  if negb ok then (false, s, w) else
  let '(success, rec_path, com_path, s, w) := save_csvs env output_dir s w in
  if success then
    let w := emit INFO rule w in
    let w := emit INFO "✓ SUCCESS! Files created:" w in
    let w := emit INFO ("  • Recipient CSV: " ++ rec_path) w in
    let w := emit INFO ("  • Commodity CSV: " ++ com_path) w in
    let w :=
      match validation_errors s with
      | [] => w
      | errors =>
          emit WARNING ("  ⚠ " ++ Py.str_nat (List.length errors)
                        ++ " validation errors - review required") w
      end in
    let w := emit INFO rule w in
    (true, s, w)
  else (false, s, w).

(** The world before a run: nothing logged, nothing written. *)
Definition fresh : World := {| log := []; files := [] |}.

End Splitter.

(** ** Notions used in the statements *)

(** Shape of a cleaned text: no comma, the only whitespace is the single
    space, never two in a row.  [after_space] tells that a space may not
    come next. *)
Fixpoint spaced_from (after_space : bool) (s : string) : bool :=
  match s with
  | EmptyString => true
  | String c r =>
      if Py.isspace c
      then Ascii.eqb c " " && negb after_space && spaced_from true r
      else negb (Ascii.eqb c ",") && spaced_from false r
  end.

(** The same, and no space ends the text. *)
Fixpoint tidy_from (after_space : bool) (s : string) : bool :=
  match s with
  | EmptyString => true
  | String c r =>
      if Py.isspace c
      then Ascii.eqb c " " && negb after_space
           && negb (String.eqb r "") && tidy_from true r
      else negb (Ascii.eqb c ",") && tidy_from false r
  end.

Definition is_plus (c : ascii) : bool := Ascii.eqb c "+".

(** Only digits, and at most one plus sign, which then comes first. *)
Definition digits_with_leading_plus (s : string) : Prop :=
  Py.sforall (fun c => Py.isdigit c || is_plus c) s = true
  /\ (Py.scount is_plus s <= 1)%nat
  /\ forall i, String.get i s = Some "+"%char -> i = 0%nat.

(** What [clean_text_field] does to the text of a cell that is there. *)
Definition clean_text (s : string) : string :=
  Py.strip (Py.sub_spaces
    (Py.replace_char "009" " "
      (Py.replace_char "013" " " (Py.replace_char "010" " " (Py.remove_char "," s))))).

(** A text with a character that is not whitespace. *)
Definition has_visible_char (s : string) : Prop :=
  exists c, In c (list_ascii_of_string s) /\ Py.isspace c = false.

(** A field that is filled in: a value is there and its text is not blank. *)
Definition nonempty_field (num_str : number -> string) (v : cell) : Prop :=
  v <> NA /\ has_visible_char (py_str num_str v).

(** A field that is emptied: the value is missing or the empty string. *)
Definition empty_value (e : cell) : Prop := e = NA \/ e = Str "".

(** [row[name] = e] *)
Fixpoint series_set (row : Series) (name : string) (e : cell) : Series :=
  match row with
  | [] => [(name, e)]
  | (k, v) :: rest =>
      if String.eqb k name then (k, e) :: rest else (k, v) :: series_set rest name e
  end.

(** The six required address fields. *)
Definition address_fields : list string := app required_fields [phone_field].

(** The error expected for a required field that is missing. *)
Definition missing_error (num_str : number -> string) (ref_num : cell) (field : string)
  : string :=
  "Ref#" ++ py_str num_str ref_num ++ ": "
  ++ (if String.eqb field phone_field then "Missing phone number"
      else "Missing required field: " ++ field).

Definition cell_at (d : DataFrame) (col : string) (i : nat) : cell :=
  match get_column d col with
  | Some vs => nth i vs NA
  | None => NA
  end.

(** A cell of a numeric column as a float: a missing value is NaN. *)
Definition cell_float (v : cell) : float :=
  match v with
  | Num n => float_of_number n
  | _ => S754_nan
  end.

(** a × b on the numbers of one row: two integers multiply as int64 and
    wrap around, any other pair multiplies as float64. *)
Definition product (a b : cell) : cell :=
  match a, b with
  | Num (Int x), Num (Int y) => Num (Int (int64 (x * y)))
  | _, _ => of_float (fmul (cell_float a) (cell_float b))
  end.

(** |v − e| on the numbers of one row, as a float: the difference of two
    integers and its absolute value are taken in int64, those of any other
    pair in float64. *)
Definition distance (v e : cell) : float :=
  match v, e with
  | Num (Int x), Num (Int y) => float_of_int (int64 (Z.abs (int64 (x - y))))
  | _, _ => fabs (fsub (cell_float v) (cell_float e))
  end.

(** quantity × unit price of row [i]. *)
Definition product_at (d : DataFrame) (i : nat) : cell :=
  product (cell_at d qty_col i) (cell_at d price_col i).

(** Row [i] has |declared value − quantity × unit price| > 0.01. *)
Definition beyond_tolerance (d : DataFrame) (i : nat) : bool :=
  fgt (distance (cell_at d value_col i) (product_at d i)) tolerance.

(** Row [i] has |declared value − quantity × unit price| <= 0.01. *)
Definition within_tolerance (d : DataFrame) (i : nat) : bool :=
  fle (distance (cell_at d value_col i) (product_at d i)) tolerance.

Definition is_number (v : cell) : bool :=
  match v with Num _ => true | _ => false end.


(** The quantity, unit price and declared value columns are there and hold
    a number in every row. *)
Definition complete_numbers (d : DataFrame) : Prop :=
  well_formed d
  /\ forall col, In col [qty_col; price_col; value_col] ->
       exists vs, get_column d col = Some vs /\ forallb is_number vs = true.




(** The steps of [process] before the files are written. *)
Definition before_emission (num_str fmt_2f : number -> string) (env : Env) (s : Splitter)
    (w : World) : bool * Splitter * World :=
  let w := emit INFO rule w in
  let w := emit INFO "Enhanced FedEx International CSV Splitter v2.0" w in
  let w := emit INFO rule w in
  let '(ok, w) := validate_input_file env s w in
  if negb ok then (false, s, w) else
  let '(ok, s, w) := load_data env s w in
  if negb ok then (false, s, w) else
  let '(ok, s, w) := clean_data num_str s w in
  if negb ok then (false, s, w) else
  let '(ok, s, w) := calculate_declared_values num_str fmt_2f s w in
  if negb ok then (false, s, w) else
  let '(ok, s, w) := validate_addresses num_str s w in
  if negb ok then (false, s, w) else
  split_data s w.

(** The issue sequences of a splitter, as its caller sees them. *)
Definition issues (s : Splitter) : list string * list string :=
  (validation_errors s, validation_warnings s).

(** ** Sample data

    Renderers for the sample runs.  An integer prints as Python prints an
    [int]; a float that is an integer prints as Python's [str] prints it
    below 1e16, and any other float prints with all the decimals of its
    exact value, where Python stops at the shortest numeral that reads back
    as the same float.  With two decimals a number prints as Python's
    [format(x, '.2f')] does: the exact value, rounded to the nearest
    hundredth, ties to even. *)

Definition Z_str (z : Z) : string := NilZero.string_of_int (Z.to_int z).

(** The value m · 2^e. *)
Definition exact (m : positive) (e : Z) : Q :=
  match e with
  | Zneg k => Zpos m # Pos.pow 2 k
  | _ => inject_Z (Zpos m * 2 ^ e)
  end.

(** Rounding to the nearest integer, ties to the even one. *)
Definition round_half_even (q : Q) : Z :=
  let f := Qfloor q in
  let r := (q - inject_Z f)%Q in
  if Qle_bool r (1 # 2)
  then if Qeq_bool r (1 # 2) then (if Z.even f then f else f + 1)%Z else f
  else (f + 1)%Z.

Definition minus_sign (s : bool) : string := if s then "-" else "".

(** [digits] as a numeral of [width] digits. *)
Definition padded (width : nat) (digits : Z) : string :=
  let text := Z_str digits in
  Py.repeat_char "0" (width - String.length text) ++ text.

Definition plain_number (n : number) : string :=
  match n with
  | Int z => Z_str z
  | Float (Zero s) => minus_sign s ++ "0.0"
  | Float (Inf s) => minus_sign s ++ "inf"
  | Float (Fin s m (Zneg k)) =>
      let d := Z.pow_pos 2 k in
      let fraction := (Zpos m mod d)%Z in
      minus_sign s ++ Z_str (Zpos m / d)
      ++ "." ++ (if (fraction =? 0)%Z then "0"
                 else padded (Pos.to_nat k) (fraction * Z.pow_pos 5 k))
  | Float (Fin s m e) => minus_sign s ++ Z_str (Zpos m * 2 ^ e) ++ ".0"
  end.

(** An amount of [z] hundredths. *)
Definition cents (s : bool) (z : Z) : string :=
  minus_sign s ++ Z_str (z / 100) ++ "." ++ padded 2 (z mod 100).

Definition float_2f (x : float) : string :=
  match x with
  | S754_nan => "nan"
  | S754_zero s => cents s 0
  | S754_infinity s => minus_sign s ++ "inf"
  | S754_finite s m e => cents s (round_half_even (exact m e * 100))
  end.

(** An [int] is formatted as its float. *)
Definition plain_2f (n : number) : string := float_2f (float_of_number n).

(** The float64 nearest to m / 10^k, which is what the readers make of a
    short decimal numeral, and the cell that holds it. *)
Definition decimal (m : Z) (k : nat) : float :=
  fdiv (float_of_int m) (float_of_int (10 ^ Z.of_nat k)).

Definition amount (m : Z) (k : nat) : cell := of_float (decimal m k).

(** A frame of one row from its labelled cells. *)
Definition one_row (cells : list (string * cell)) : DataFrame :=
  {| nrows := 1; columns := map (fun kv => (fst kv, [snd kv])) cells |}.

(** A manifest row in the 31-column layout: 21 recipient columns, then 10
    commodity columns.  The columns the program never names are fillers. *)
Definition manifest_row (country declared : cell) : list (string * cell) :=
  [ ("REFERENCE # (Recipient 1, 2, etc.)", Num (Int 1));
    ("SHIP TO ATTENTION (required)", Str "Ada Lovelace");
    ("RECIPIENT EMAIL (if applicable)", Str "ada@example.org");
    ("COMPANY NAME (if applicable)", NA);
    ("SHIP TO ADDRESS LINE 1 (required)", Str "12 St James Square");
    ("SHIP TO ADDRESS LINE 2 (if applicable)", NA);
    ("CITY (required)", Str "London");
    ("STATE / PROVINCE (if applicable)", NA);
    ("COUNTRY (required)", country);
    ("POSTAL CODE (required)", Str " n1 2ab ");
    ("RECIPIENT PHONE # (required)", Str "(555) 123-4567");
    ("BILLING - 3RD PARTY COMPANY NAME (required)", Str "SilverScreen");
    ("BILLING - 3RD PARTY ADDRESS 1 (required)", Str "1 Main St");
    ("BILLING - 3RD PARTY ADDRESS 2 (if applicable)", NA);
    ("BILLING - 3RD PARTY CITY (required)", Str "Reno");
    ("BILLING - 3RD PARTY POSTAL CODE (required)", Str "89501");
    ("FILLER 17", NA); ("FILLER 18", NA); ("FILLER 19", NA);
    ("FILLER 20", NA); ("FILLER 21", NA);
    ("ITEM DESCRIPTION (required)", Str "T-shirt, printed");
    ("STYLE # (required)", Str "TS-100");
    ("QUANTITY (required)", Num (Int 2));
    ("UNIT PRICE (required)", amount 500 2);
    ("DECLARED VALUE (required)", declared);
    ("FILLER 27", NA); ("FILLER 28", NA); ("FILLER 29", NA);
    ("FILLER 30", NA); ("FILLER 31", NA) ].

(** The manifest without its last column: 30 columns. *)
Definition manifest_30 : DataFrame :=
  one_row (removelast (manifest_row (Str "England") (amount 900 2))).

(** A 31-column manifest whose country cell is empty. *)
Definition manifest_no_country : DataFrame :=
  one_row (manifest_row NA (amount 1000 2)).

Definition shipments_csv : Path := child "/data" "shipments.csv".

(** An environment in which [shipments.csv] exists and parses to [d], and
    every write succeeds. *)
Definition env_with (d : DataFrame) : Env :=
  {| path_exists := fun _ => true;
     read_csv := fun _ => Some d;
     read_excel := fun _ => None;
     mkdir := fun _ => true;
     writable := fun _ => true |}.

(** Two commodity rows: the first within tolerance (10.005 against 10), the
    second beyond it (9 against 10). *)
Definition two_rows : DataFrame :=
  {| nrows := 2;
     columns :=
       [ (ref_col, [Str "R1"; Str "R1"]);
         (qty_col, [Num (Int 1); Num (Int 2)]);
         (price_col, [amount 1000 2; amount 500 2]);
         (value_col, [amount 10005 3; amount 900 2]) ] |}.

(** One commodity row: 0.07 declared against 1 × 0.06. *)
Definition seven_cents : DataFrame :=
  {| nrows := 1;
     columns :=
       [ (ref_col, [Str "R1"]); (qty_col, [Num (Int 1)]); (price_col, [amount 6 2]);
         (value_col, [amount 7 2]) ] |}.

(** One commodity row of integers whose product does not fit an int64. *)
Definition large_integers : DataFrame :=
  {| nrows := 1;
     columns :=
       [ (ref_col, [Str "R1"]); (qty_col, [Num (Int 3037000500)]);
         (price_col, [Num (Int 3037000500)]); (value_col, [Num (Int 0)]) ] |}.

(** One commodity row whose declared value was left empty. *)
Definition no_declared_value : DataFrame :=
  {| nrows := 1;
     columns :=
       [ (ref_col, [Str "R1"]); (qty_col, [Num (Int 2)]); (price_col, [amount 500 2]);
         (value_col, [NA]) ] |}.

(** A splitter that has loaded [d]. *)
Definition loaded (d : DataFrame) : Splitter := set_df (new_splitter shipments_csv) d.

(** A row whose six required address fields are filled in. *)
Definition filled_address : Series :=
  [ ("SHIP TO ATTENTION (required)", Str "Ada Lovelace");
    ("SHIP TO ADDRESS LINE 1 (required)", Str "12 St James Square");
    ("CITY (required)", Str "London");
    ("COUNTRY (required)", Str "GB");
    ("POSTAL CODE (required)", Str "N1 2AB");
    ("RECIPIENT PHONE # (required)", Str "5551234567") ].

Definition report_pdf : Path := child "/data" "report.PDF".

(** The issue sequences have grown between two states of a splitter. *)
Definition surfaces_issue (before after : Splitter) : Prop :=
  validation_errors after <> validation_errors before
  \/ validation_warnings after <> validation_warnings before.


(** The frame a step leaves in the splitter. *)
Definition frame_of (result : bool * Splitter * World) : DataFrame :=
  match df (snd (fst result)) with
  | Some d => d
  | None => {| nrows := 0; columns := [] |}
  end.

(** ** Further notions for the cleaners *)

Definition is_comma (c : ascii) : bool := Ascii.eqb c ",".

(** The characters that break a field of the output file: comma, line
    feed, carriage return, tab. *)
Definition is_separator (c : ascii) : bool :=
  Ascii.eqb c "," || Ascii.eqb c "010" || Ascii.eqb c "013" || Ascii.eqb c "009".

(** A character that is neither whitespace nor a comma. *)
Definition visible (c : ascii) : bool := negb (Py.isspace c) && negb (is_comma c).

(** Shape of a trimmed text: the only whitespace is the single space, never
    two in a row, none at the end.  [after_space] tells that a space may not
    come next. *)
Fixpoint trim_from (after_space : bool) (s : string) : bool :=
  match s with
  | EmptyString => true
  | String c r =>
      if Py.isspace c
      then Ascii.eqb c " " && negb after_space
           && negb (String.eqb r "") && trim_from true r
      else trim_from false r
  end.

Definition no_leading_space (s : string) : bool :=
  match s with
  | EmptyString => true
  | String c _ => negb (Py.isspace c)
  end.

(** The spacing of a cleaned text, said on its positions: a whitespace
    character is a space, is not the first character, and is followed by a
    character that is not whitespace. *)
Definition single_inner_spaces (s : string) : Prop :=
  forall i c,
    String.get i s = Some c -> Py.isspace c = true ->
    c = " "%char /\ (0 < i)%nat
    /\ exists c', String.get (S i) s = Some c' /\ Py.isspace c' = false.

(** A letter of the ASCII alphabet: A to Z or a to z. *)
Definition ascii_letter (c : ascii) : bool :=
  Py.between 65 90 (Py.code c) || Py.between 97 122 (Py.code c).

(** One of the letters a to z. *)
Definition small_letter (c : ascii) : bool := Py.between 97 122 (Py.code c).

(** What the table says for each of its names: the name is not empty; a
    name of two letters is "UK"; every other name is found under itself. *)
Definition alias_checked (kv : string * string) : bool :=
  negb (String.eqb (fst kv) "")
  && (if (String.length (fst kv) =? 2)%nat && Py.isalpha (fst kv)
      then String.eqb (fst kv) "UK"
      else negb (String.eqb (fst kv) "UK")
           && match dict_get COUNTRY_CODES (fst kv) with
              | Some code => String.eqb code (snd kv)
              | None => false
              end).

(** ** Further notions for the validator *)

(** The required address fields a row leaves blank, in the order checked. *)
Definition blank_fields (num_str : number -> string) (row : Series) : list string :=
  filter (fun f => is_blank num_str (series_get row f)) address_fields.

(** ** Further notions for the pipeline steps *)

(** Position of the first row whose reference equals [ref_num]. *)
Definition first_row_of (refs : list cell) (ref_num : cell) : nat :=
  match first_index (fun v => cell_eq v ref_num) refs with
  | Some i => i
  | None => 0
  end.

(** The errors of the first row of every reference, in order of first
    appearance of the references. *)
Definition address_errors (num_str : number -> string) (d : DataFrame) (refs : list cell)
  : list string :=
  flat_map (fun ref_num =>
              snd (validate_address num_str (row_at d (first_row_of refs ref_num)) ref_num))
           (unique refs).

(** Two rows of one recipient; the second row has lost its city. *)
Definition one_recipient_two_rows : DataFrame :=
  {| nrows := 2;
     columns :=
       [ (ref_col, [Str "R1"; Str "R1"]);
         ("SHIP TO ATTENTION (required)", [Str "Ada Lovelace"; Str "Ada Lovelace"]);
         ("SHIP TO ADDRESS LINE 1 (required)",
          [Str "12 St James Square"; Str "12 St James Square"]);
         ("CITY (required)", [Str "London"; Str ""]);
         ("COUNTRY (required)", [Str "GB"; Str "GB"]);
         ("POSTAL CODE (required)", [Str "N1 2AB"; Str "N1 2AB"]);
         ("RECIPIENT PHONE # (required)", [Str "5551234567"; Str "5551234567"]) ] |}.

(** Two rows, the second without a reference number. *)
Definition missing_reference : DataFrame :=
  {| nrows := 2;
     columns :=
       [ (ref_col, [Str "R1"; NA]);
         (qty_col, [Num (Int 1); Num (Int 1)]);
         (price_col, [amount 500 2; amount 500 2]);
         (value_col, [amount 500 2; amount 500 2]) ] |}.

(** The text starts with a character that is not whitespace. *)
Definition head_visible (s : string) : bool :=
  match s with
  | EmptyString => false
  | String c _ => negb (Py.isspace c)
  end.

(** A manifest row of some unknown country, before cleaning. *)
Definition manifest_unknown_country : DataFrame :=
  one_row (manifest_row (Str "  atlantis ") (amount 1000 2)).

(** The labels that are none of the scratch labels of the reconciliation
    step. *)
Definition without_scratch (names : list string) : list string :=
  filter (fun k => negb (existsb (String.eqb k) scratch_columns)) names.

(** One commodity row of a table that has no quantity column. *)
Definition no_quantity : DataFrame :=
  {| nrows := 1;
     columns :=
       [ (ref_col, [Str "R1"]); (price_col, [amount 500 2]);
         (value_col, [amount 1000 2]) ] |}.

(** The directory [save_csvs] writes to. *)
Definition output_directory (output_dir : option string) (s : Splitter) : string :=
  match output_dir with
  | Some o => o
  | None => parent (input_file s)
  end.

(** An environment like [env_with d] in which the commodity file cannot be
    written. *)
Definition env_commodity_locked (d : DataFrame) : Env :=
  {| path_exists := fun _ => true;
     read_csv := fun _ => Some d;
     read_excel := fun _ => None;
     mkdir := fun _ => true;
     writable := fun p => negb (String.eqb (name p) OUTPUT_COMMODITY_FILENAME) |}.

(** The 31-column manifest, and a splitter that has split it. *)
Definition manifest_31 : DataFrame := one_row (manifest_row (Str "GB") (amount 1000 2)).

Definition split_manifest_31 : Splitter :=
  set_split (loaded manifest_31)
    (iloc_columns 0 21 manifest_31) (iloc_columns 21 31 manifest_31).

(** What cleaning does to a cell, by the label of its column. *)
Definition cleaned_cell (num_str : number -> string) (col : string) (v : cell) : cell :=
  if existsb (String.eqb col) text_columns then Str (clean_text_field num_str v)
  else if String.eqb col phone_col then Str (clean_phone_number num_str v)
  else if existsb (String.eqb col) postal_cols then Str (clean_postal_code num_str v)
  else if String.eqb col country_col then Str (fst (standardize_country num_str v))
  else v.

(** An environment in which the file exists and the readers raise. *)
Definition env_unreadable : Env :=
  {| path_exists := fun _ => true;
     read_csv := fun _ => None;
     read_excel := fun _ => None;
     mkdir := fun _ => true;
     writable := fun _ => true |}.

(** Case analysis on the scrutinee of a match of the goal. *)
Ltac break_match :=
  match goal with
  | |- context [match ?x with _ => _ end] => destruct x eqn:?
  | |- context [if ?x then _ else _] => destruct x eqn:?
  end.

(** ** Properties of the cleaners *)

Section CleanerProperties.

Variable num_str : number -> string.

Lemma sfilter_idempotent (p : ascii -> bool) (s : string) :
  Py.sfilter p (Py.sfilter p s) = Py.sfilter p s.
Proof.
  induction s as [|c r IH]; simpl; [reflexivity|].
  destruct (p c) eqn:E; simpl; [rewrite E, IH|]; auto.
Qed.

Lemma sfilter_sforall (p : ascii -> bool) (s : string) :
  Py.sforall p (Py.sfilter p s) = true.
Proof.
  induction s as [|c r IH]; simpl; [reflexivity|].
  destruct (p c) eqn:E; simpl; [rewrite E|]; auto.
Qed.

Lemma sfilter_scount (p q : ascii -> bool) (s : string) :
  (forall c, q c = true -> p c = true) ->
  Py.scount q (Py.sfilter p s) = Py.scount q s.
Proof.
  intros Hqp. induction s as [|c r IH]; simpl; [reflexivity|].
  destruct (p c) eqn:E; simpl; [congruence|].
  destruct (q c) eqn:F; [apply Hqp in F; congruence | simpl; exact IH].
Qed.

(** C10: cleaning a cleaned phone number changes nothing. *)
Theorem clean_phone_number_idempotent (x : cell) :
  clean_phone_number num_str (Str (clean_phone_number num_str x))
  = clean_phone_number num_str x.
Proof.
  unfold clean_phone_number. destruct x as [|s|q]; simpl; auto using sfilter_idempotent.
Qed.

(** C3, as the code has it: the cleaned phone number of a string holds
    digits and plus signs only, and keeps every digit and every plus sign
    of the input, wherever it stands. *)
Theorem clean_phone_number_keeps_digits_and_pluses (s : string) :
  Py.sforall (fun c => Py.isdigit c || is_plus c) (clean_phone_number num_str (Str s)) = true
  /\ Py.scount is_plus (clean_phone_number num_str (Str s)) = Py.scount is_plus s
  /\ Py.scount Py.isdigit (clean_phone_number num_str (Str s)) = Py.scount Py.isdigit s.
Proof.
  unfold clean_phone_number; simpl. repeat split.
  - apply (sfilter_sforall phone_char).
  - apply sfilter_scount. intros c H. unfold phone_char, is_plus in *.
    rewrite H. apply orb_true_r.
  - apply sfilter_scount. intros c H. unfold phone_char. rewrite H. reflexivity.
Qed.

(** *** The shape of a cleaned text *)

Lemma isspace_comma : Py.isspace "," = false.
Proof. reflexivity. Qed.

Lemma collapse_spaced (b : bool) (s : string) :
  Py.sforall (fun c => negb (Ascii.eqb c ",")) s = true ->
  spaced_from b (Py.collapse_from b s) = true.
Proof.
  revert b. induction s as [|c r IH]; intros b H; simpl in *; [reflexivity|].
  apply andb_true_iff in H as [Hc Hr].
  destruct (Py.isspace c) eqn:E.
  - destruct b; simpl; [apply IH; exact Hr|].
    rewrite (IH true Hr). reflexivity.
  - simpl. rewrite E, Hc. simpl. apply IH; exact Hr.
Qed.

Lemma spaced_after_space (b : bool) (s : string) :
  spaced_from b s = true -> spaced_from true (Py.lstrip s) = true.
Proof.
  destruct s as [|c r]; simpl; [reflexivity|].
  destruct (Py.isspace c) eqn:E; intros H.
  - apply andb_true_iff in H as [_ Hr].
    destruct r as [|c' r']; simpl in *; [reflexivity|].
    destruct (Py.isspace c') eqn:E'; simpl.
    + rewrite andb_false_r in Hr. discriminate.
    + rewrite E'. exact Hr.
  - simpl. rewrite E. exact H.
Qed.

Lemma rstrip_tidy (b : bool) (s : string) :
  spaced_from b s = true -> tidy_from b (Py.rstrip s) = true.
Proof.
  revert b. induction s as [|c r IH]; intros b H; simpl in *; [reflexivity|].
  destruct (Py.isspace c) eqn:E.
  - apply andb_true_iff in H as [H Hr]. specialize (IH true Hr).
    destruct (Py.rstrip r) as [|c' r'] eqn:R; [reflexivity|].
    cbn [tidy_from]. rewrite E, H. exact IH.
  - apply andb_true_iff in H as [H Hr]. specialize (IH false Hr).
    destruct (Py.rstrip r) as [|c' r'] eqn:R.
    + cbn [tidy_from]. rewrite E, H. reflexivity.
    + cbn [tidy_from]. rewrite E, H. exact IH.
Qed.

Lemma tidy_no_char (b : bool) (a : ascii) (s : string) :
  tidy_from b s = true ->
  (a = ","%char \/ (Py.isspace a = true /\ a <> " "%char)) ->
  Py.sforall (fun c => negb (Ascii.eqb c a)) s = true.
Proof.
  intros H Ha. revert b H. induction s as [|c r IH]; intros b H; simpl in *; [reflexivity|].
  destruct (Py.isspace c) eqn:E.
  - repeat (apply andb_true_iff in H as [H ?]).
    apply Ascii.eqb_eq in H. subst c.
    rewrite (IH true) by assumption. rewrite andb_true_r.
    destruct Ha as [-> | [_ Hne]]; [reflexivity|].
    apply negb_true_iff, Ascii.eqb_neq. congruence.
  - apply andb_true_iff in H as [H Hr].
    rewrite (IH false Hr), andb_true_r.
    destruct Ha as [-> | [Hs _]]; [exact H|].
    apply negb_true_iff, Ascii.eqb_neq. intros ->. congruence.
Qed.

Lemma remove_absent (a : ascii) (s : string) :
  Py.sforall (fun c => negb (Ascii.eqb c a)) s = true -> Py.remove_char a s = s.
Proof.
  unfold Py.remove_char. induction s as [|c r IH]; simpl; [reflexivity|].
  intros H. apply andb_true_iff in H as [Hc Hr]. rewrite Hc, (IH Hr). reflexivity.
Qed.

Lemma replace_absent (a b : ascii) (s : string) :
  Py.sforall (fun c => negb (Ascii.eqb c a)) s = true -> Py.replace_char a b s = s.
Proof.
  unfold Py.replace_char. induction s as [|c r IH]; simpl; [reflexivity|].
  intros H. apply andb_true_iff in H as [Hc Hr].
  apply negb_true_iff in Hc. rewrite Hc, (IH Hr). reflexivity.
Qed.

Lemma collapse_tidy (b b' : bool) (s : string) :
  tidy_from b s = true -> (b' = true -> b = true) -> Py.collapse_from b' s = s.
Proof.
  revert b b'. induction s as [|c r IH]; intros b b' H Hb; simpl in *; [reflexivity|].
  destruct (Py.isspace c) eqn:E.
  - repeat (apply andb_true_iff in H as [H ?]).
    apply Ascii.eqb_eq in H. subst c.
    destruct b; [discriminate|].
    destruct b'; [specialize (Hb eq_refl); discriminate|].
    f_equal. apply (IH true); auto.
  - apply andb_true_iff in H as [H Hr].
    f_equal. apply (IH false); [exact Hr | discriminate].
Qed.

Lemma lstrip_tidy (s : string) : tidy_from true s = true -> Py.lstrip s = s.
Proof.
  destruct s as [|c r]; simpl; [reflexivity|].
  destruct (Py.isspace c); [|reflexivity].
  rewrite andb_false_r. discriminate.
Qed.

Lemma rstrip_of_tidy (b : bool) (s : string) :
  tidy_from b s = true -> Py.rstrip s = s.
Proof.
  revert b. induction s as [|c r IH]; intros b H; simpl in *; [reflexivity|].
  destruct (Py.isspace c) eqn:E.
  - repeat (apply andb_true_iff in H as [H ?]).
    rewrite (IH true) by assumption.
    destruct r; [discriminate | reflexivity].
  - apply andb_true_iff in H as [H Hr].
    rewrite (IH false Hr). destruct r; reflexivity.
Qed.

Lemma no_comma_after_replace (a b : ascii) (s : string) :
  b <> ","%char ->
  Py.sforall (fun c => negb (Ascii.eqb c ",")) s = true ->
  Py.sforall (fun c => negb (Ascii.eqb c ",")) (Py.replace_char a b s) = true.
Proof.
  intros Hb. unfold Py.replace_char.
  induction s as [|c r IH]; simpl; [reflexivity|].
  intros H. apply andb_true_iff in H as [Hc Hr]. rewrite (IH Hr), andb_true_r.
  destruct (Ascii.eqb c a); [|exact Hc].
  apply negb_true_iff, Ascii.eqb_neq. exact Hb.
Qed.

Lemma clean_text_tidy (s : string) : tidy_from true (clean_text s) = true.
Proof.
  unfold clean_text, Py.strip, Py.sub_spaces.
  apply rstrip_tidy, (spaced_after_space false), collapse_spaced.
  repeat (apply no_comma_after_replace; [discriminate|]).
  apply (sfilter_sforall (fun c => negb (Ascii.eqb c ","))).
Qed.

Lemma clean_text_fixes_tidy (s : string) : tidy_from true s = true -> clean_text s = s.
Proof.
  intros H. unfold clean_text, Py.strip, Py.sub_spaces.
  assert (Hno : forall a, a = ","%char \/ (Py.isspace a = true /\ a <> " "%char) ->
                          Py.sforall (fun c => negb (Ascii.eqb c a)) s = true)
    by (intros a Ha; exact (tidy_no_char true a s H Ha)).
  rewrite (remove_absent "," s) by (apply Hno; left; reflexivity).
  rewrite (replace_absent "010" " " s)
    by (apply Hno; right; split; [reflexivity | discriminate]).
  rewrite (replace_absent "013" " " s)
    by (apply Hno; right; split; [reflexivity | discriminate]).
  rewrite (replace_absent "009" " " s)
    by (apply Hno; right; split; [reflexivity | discriminate]).
  rewrite (collapse_tidy true false s H) by discriminate.
  rewrite (lstrip_tidy s H). apply (rstrip_of_tidy true s H).
Qed.

(** C8: cleaning a cleaned text changes nothing. *)
Theorem clean_text_field_idempotent (x : cell) :
  clean_text_field num_str (Str (clean_text_field num_str x))
  = clean_text_field num_str x.
Proof.
  destruct x as [|s|q]; [reflexivity| |];
    apply clean_text_fixes_tidy, clean_text_tidy.
Qed.

End CleanerProperties.

(** ** Properties of the country mapper *)

Section CountryProperties.

Variable num_str : number -> string.

Lemma prefix_length (n : nat) (s : string) :
  (n <= String.length s)%nat -> String.length (Py.prefix n s) = n.
Proof.
  revert s. induction n as [|n IH]; intros [|c r] H; simpl in *; try lia.
  rewrite IH; lia.
Qed.

Lemma dict_get_In (d : list (string * string)) (k v : string) :
  dict_get d k = Some v -> In v (map snd d).
Proof.
  induction d as [|[k' v'] rest IH]; simpl; [discriminate|].
  destruct (String.eqb k k'); [intros [= ->]; auto | auto].
Qed.

Lemma COUNTRY_CODES_two_letters :
  Forall (fun code => String.length code = 2%nat) (map snd COUNTRY_CODES).
Proof. unfold COUNTRY_CODES. simpl. repeat constructor. Qed.

(** C7: whatever the input, the code returned has exactly two characters. *)
Theorem standardize_country_two_chars (country : cell) :
  String.length (fst (standardize_country num_str country)) = 2%nat.
Proof.
  unfold standardize_country.
  destruct (isna country || negb (truthy country)); [reflexivity|].
  set (country_clean := Py.upper (Py.strip (py_str num_str country))).
  destruct ((String.length country_clean =? 2)%nat && Py.isalpha country_clean) eqn:E.
  - apply andb_true_iff in E as [E _]. apply Nat.eqb_eq in E. exact E.
  - destruct (dict_get COUNTRY_CODES country_clean) as [code|] eqn:D; cbn [fst].
    + apply dict_get_In in D.
      exact (proj1 (Forall_forall _ _) COUNTRY_CODES_two_letters code D).
    + destruct (2 <=? String.length country_clean)%nat eqn:L; [|reflexivity].
      apply prefix_length. apply Nat.leb_le. exact L.
Qed.

End CountryProperties.

(** ** Properties of the address validator *)

Section ValidatorProperties.

Variable num_str : number -> string.

Lemma lstrip_visible (s : string) :
  has_visible_char s ->
  exists c r, Py.lstrip s = String c r /\ Py.isspace c = false.
Proof.
  induction s as [|a r IH]; intros [c [Hin Hc]]; simpl in *; [contradiction|].
  destruct (Py.isspace a) eqn:E.
  - destruct Hin as [-> | Hin]; [congruence|]. apply IH. exists c. auto.
  - exists a, r. auto.
Qed.

Lemma rstrip_keeps_visible_head (c : ascii) (r : string) :
  Py.isspace c = false -> Py.rstrip (String c r) <> "".
Proof.
  intros E. simpl. destruct (Py.rstrip r); rewrite ?E; discriminate.
Qed.

Lemma nonempty_not_blank (v : cell) :
  nonempty_field num_str v -> is_blank num_str v = false.
Proof.
  intros [Hna Hvis]. unfold is_blank.
  destruct v as [|s|q]; [congruence| |]; simpl;
    apply lstrip_visible in Hvis as [c [r [Hl Hc]]];
    unfold Py.strip; simpl in Hl; rewrite Hl;
    apply String.eqb_neq, rstrip_keeps_visible_head, Hc.
Qed.

Lemma empty_blank (e : cell) : empty_value e -> is_blank num_str e = true.
Proof. intros [-> | ->]; reflexivity. Qed.

Lemma series_get_set (row : Series) (f g : string) (e : cell) :
  series_get (series_set row f e) g
  = if String.eqb g f then e else series_get row g.
Proof.
  induction row as [|[k v] rest IH]; simpl.
  - rewrite (String.eqb_sym f g). destruct (String.eqb g f); reflexivity.
  - destruct (String.eqb k f) eqn:Ekf; simpl.
    + apply String.eqb_eq in Ekf. subst k.
      rewrite (String.eqb_sym f g). destruct (String.eqb g f); reflexivity.
    + destruct (String.eqb k g) eqn:Ekg; [|exact IH].
      apply String.eqb_eq in Ekg. subst k.
      rewrite Ekf. reflexivity.
Qed.

(** C6: a row with the six required address fields filled in passes with
    no error; the same row with one of the six emptied yields exactly one
    error, which carries the reference number and names that field. *)
Theorem validate_address_complete_or_one_missing (row : Series) (ref_num : cell) :
  (forall f, In f address_fields -> nonempty_field num_str (series_get row f)) ->
  validate_address num_str row ref_num = (true, [])
  /\ forall f e, In f address_fields -> empty_value e ->
       validate_address num_str (series_set row f e) ref_num
       = (false, [missing_error num_str ref_num f]).
Proof.
  intros Hfilled.
  assert (B : forall f, In f address_fields ->
                        is_blank num_str (series_get row f) = false)
    by (intros f Hf; apply nonempty_not_blank, Hfilled, Hf).
  pose proof (B _ (or_introl eq_refl)) as B1.
  pose proof (B _ (or_intror (or_introl eq_refl))) as B2.
  pose proof (B _ (or_intror (or_intror (or_introl eq_refl)))) as B3.
  pose proof (B _ (or_intror (or_intror (or_intror (or_introl eq_refl))))) as B4.
  pose proof (B _ (or_intror (or_intror (or_intror (or_intror (or_introl eq_refl)))))) as B5.
  pose proof (B _ (or_intror (or_intror (or_intror (or_intror
                    (or_intror (or_introl eq_refl))))))) as B6.
  clear B. split.
  - unfold validate_address, required_fields, phone_field.
    cbn [check_required]. unfold validate_required_fields.
    rewrite B1, B2, B3, B4, B5. unfold phone_field in B6. rewrite B6. reflexivity.
  - intros f e Hf He. apply empty_blank in He.
    unfold validate_address, required_fields, missing_error.
    cbn [check_required]. unfold validate_required_fields.
    rewrite !series_get_set.
    unfold address_fields, required_fields, phone_field in Hf. unfold phone_field in *.
    cbn [app In] in Hf.
    destruct Hf as [<-|[<-|[<-|[<-|[<-|[<-|[]]]]]]];
      cbn [String.eqb Ascii.eqb Bool.eqb];
      rewrite ?He, ?B1, ?B2, ?B3, ?B4, ?B5, ?B6; reflexivity.
Qed.

End ValidatorProperties.

(** ** Properties of the pipeline *)

Section PipelineProperties.

Variable num_str : number -> string.
Variable fmt_2f : number -> string.

(** *** No step before [save_csvs] writes a file *)

Lemma validate_input_file_files env s w :
  files (snd (validate_input_file env s w)) = files w.
Proof. unfold validate_input_file. repeat break_match; reflexivity. Qed.

Lemma load_data_files env s w :
  files (snd (load_data env s w)) = files w.
Proof. unfold load_data. repeat break_match; reflexivity. Qed.

Lemma clean_data_files s w :
  files (snd (clean_data num_str s w)) = files w.
Proof.
  unfold clean_data. destruct (df s) as [d|]; [|reflexivity].
  destruct (get_column _ country_col); reflexivity.
Qed.

Lemma calculate_declared_values_files s w :
  files (snd (calculate_declared_values num_str fmt_2f s w)) = files w.
Proof. unfold calculate_declared_values. repeat break_match; reflexivity. Qed.

Lemma validate_addresses_files s w :
  files (snd (validate_addresses num_str s w)) = files w.
Proof. unfold validate_addresses. repeat break_match; reflexivity. Qed.

Lemma split_data_files s w :
  files (snd (split_data s w)) = files w.
Proof. unfold split_data. repeat break_match; reflexivity. Qed.

Lemma before_emission_files env s w :
  files (snd (before_emission num_str fmt_2f env s w)) = files w.
Proof.
  unfold before_emission.
  set (w0 := emit INFO rule (emit INFO _ (emit INFO rule w))).
  pose proof (validate_input_file_files env s w0) as H1.
  destruct (validate_input_file env s w0) as [ok1 w1]. simpl in H1.
  destruct ok1; simpl; [|exact H1].
  pose proof (load_data_files env s w1) as H2.
  destruct (load_data env s w1) as [[ok2 s2] w2]. simpl in H2.
  destruct ok2; simpl; [|congruence].
  pose proof (clean_data_files s2 w2) as H3.
  destruct (clean_data num_str s2 w2) as [[ok3 s3] w3]. simpl in H3.
  destruct ok3; simpl; [|congruence].
  pose proof (calculate_declared_values_files s3 w3) as H4.
  destruct (calculate_declared_values num_str fmt_2f s3 w3) as [[ok4 s4] w4]. simpl in H4.
  destruct ok4; simpl; [|congruence].
  pose proof (validate_addresses_files s4 w4) as H5.
  destruct (validate_addresses num_str s4 w4) as [[ok5 s5] w5]. simpl in H5.
  destruct ok5; simpl; [|congruence].
  rewrite split_data_files. congruence.
Qed.

(** [process] runs the steps before emission and stops where they fail. *)
Lemma process_stops_before_emission env output_dir s w s1 w1 :
  before_emission num_str fmt_2f env s w = (false, s1, w1) ->
  process num_str fmt_2f env output_dir s w = (false, s1, w1).
Proof.
  unfold before_emission, process.
  set (w0 := emit INFO rule (emit INFO _ (emit INFO rule w))).
  destruct (validate_input_file env s w0) as [ok1 w1'].
  destruct ok1; simpl; [|auto].
  destruct (load_data env s w1') as [[ok2 s2] w2].
  destruct ok2; simpl; [|auto].
  destruct (clean_data num_str s2 w2) as [[ok3 s3] w3].
  destruct ok3; simpl; [|auto].
  destruct (calculate_declared_values num_str fmt_2f s3 w3) as [[ok4 s4] w4].
  destruct ok4; simpl; [|auto].
  destruct (validate_addresses num_str s4 w4) as [[ok5 s5] w5].
  destruct ok5; simpl; [|auto].
  destruct (split_data s5 w5) as [[ok6 s6] w6].
  destruct ok6; simpl; [discriminate | auto].
Qed.

(** Once they have succeeded, the verdict of [process] is that of
    [save_csvs]. *)
Lemma process_verdict_of_save env output_dir s w s1 w1 :
  before_emission num_str fmt_2f env s w = (true, s1, w1) ->
  exists w3,
    process num_str fmt_2f env output_dir s w
    = (fst (fst (fst (fst (save_csvs env output_dir s1 w1)))),
       snd (fst (save_csvs env output_dir s1 w1)), w3)
    /\ files w3 = files (snd (save_csvs env output_dir s1 w1)).
Proof.
  unfold before_emission, process.
  set (w0 := emit INFO rule (emit INFO _ (emit INFO rule w))).
  destruct (validate_input_file env s w0) as [ok1 w1'].
  destruct ok1; simpl; [|discriminate].
  destruct (load_data env s w1') as [[ok2 s2] w2].
  destruct ok2; simpl; [|discriminate].
  destruct (clean_data num_str s2 w2) as [[ok3 s3] w3].
  destruct ok3; simpl; [|discriminate].
  destruct (calculate_declared_values num_str fmt_2f s3 w3) as [[ok4 s4] w4].
  destruct ok4; simpl; [|discriminate].
  destruct (validate_addresses num_str s4 w4) as [[ok5 s5] w5].
  destruct ok5; simpl; [|discriminate].
  intros ->. simpl.
  destruct (save_csvs env output_dir s1 w1) as [[[[success rp] cp] s7] w7].
  destruct success; simpl; eexists; split; try reflexivity.
  destruct (validation_errors s7); reflexivity.
Qed.

Lemma existsb_eqb_false (x : string) (l : list string) :
  ~ In x l -> existsb (String.eqb x) l = false.
Proof.
  induction l as [|y l IH]; simpl; [reflexivity|].
  intros H. destruct (String.eqb x y) eqn:E.
  - apply String.eqb_eq in E. subst. exfalso. auto.
  - apply IH. auto.
Qed.

(** C9: an input path whose extension, lowercased, is none of [.xlsx],
    [.xls] and [.csv] makes the run fail at its first step: the splitter
    is left as it was (nothing is loaded) and no file is written. *)
Theorem process_rejects_unsupported_extension env output_dir s w :
  ~ In (Py.lower (suffix (input_file s))) valid_extensions ->
  exists w',
    process num_str fmt_2f env output_dir s w = (false, s, w')
    /\ files w' = files w.
Proof.
  intros H. apply existsb_eqb_false in H.
  unfold process, validate_input_file. rewrite H.
  destruct (path_exists env (input_file s)); simpl; eexists; split; reflexivity.
Qed.


End PipelineProperties.

(** ** Columns of a data frame *)

Section FrameProperties.

Lemma lookup_replace_other cols c c' vs :
  c <> c' ->
  lookup_column (replace_column cols c vs) c' = lookup_column cols c'.
Proof.
  intros Hne. induction cols as [|[k old] rest IH]; simpl; [reflexivity|].
  destruct (String.eqb k c) eqn:E; simpl.
  - apply String.eqb_eq in E. subst k.
    apply String.eqb_neq in Hne. rewrite Hne. reflexivity.
  - rewrite IH. reflexivity.
Qed.

Lemma lookup_app_other cols c c' vs :
  c <> c' ->
  lookup_column (app cols [(c, vs)]) c' = lookup_column cols c'.
Proof.
  intros Hne. induction cols as [|[k old] rest IH]; simpl.
  - apply String.eqb_neq in Hne. rewrite Hne. reflexivity.
  - rewrite IH. reflexivity.
Qed.

Lemma get_set_other d c c' vs :
  c <> c' -> get_column (set_column d c vs) c' = get_column d c'.
Proof.
  intros Hne. unfold get_column, set_column; simpl.
  destruct (has_column d c); auto using lookup_replace_other, lookup_app_other.
Qed.

Lemma lookup_replace_same cols c vs :
  existsb (String.eqb c) (map fst cols) = true ->
  lookup_column (replace_column cols c vs) c = Some vs.
Proof.
  induction cols as [|[k old] rest IH]; simpl; [discriminate|].
  rewrite (String.eqb_sym c k).
  destruct (String.eqb k c) eqn:E; simpl; intros H.
  - rewrite E. reflexivity.
  - rewrite E. apply IH, H.
Qed.

Lemma lookup_app_same cols c vs :
  existsb (String.eqb c) (map fst cols) = false ->
  lookup_column (app cols [(c, vs)]) c = Some vs.
Proof.
  induction cols as [|[k old] rest IH]; simpl.
  - rewrite String.eqb_refl. reflexivity.
  - rewrite (String.eqb_sym c k).
    destruct (String.eqb k c); simpl; [discriminate | exact IH].
Qed.

Lemma get_set_same d c vs : get_column (set_column d c vs) c = Some vs.
Proof.
  unfold get_column, set_column, has_column, column_names; simpl.
  destruct (existsb (String.eqb c) (map fst (columns d))) eqn:E;
    auto using lookup_replace_same, lookup_app_same.
Qed.

Lemma get_apply_other f d c c' :
  c <> c' -> get_column (apply_column f d c) c' = get_column d c'.
Proof.
  intros Hne. unfold apply_column.
  destruct (get_column d c); [apply get_set_other, Hne | reflexivity].
Qed.

Lemma get_fold_apply_other f cols d c' :
  forallb (fun c => negb (String.eqb c c')) cols = true ->
  get_column (fold_left (apply_column f) cols d) c' = get_column d c'.
Proof.
  revert d. induction cols as [|c cols IH]; intros d H; simpl in *; [reflexivity|].
  apply andb_true_iff in H as [Hc H].
  rewrite (IH _ H). apply get_apply_other.
  apply String.eqb_neq, negb_true_iff, Hc.
Qed.

Lemma get_drop_other d names c :
  existsb (String.eqb c) names = false ->
  get_column (drop_columns d names) c = get_column d c.
Proof.
  intros H. unfold get_column, drop_columns; simpl.
  induction (columns d) as [|[k vs] rest IH]; simpl; [reflexivity|].
  destruct (String.eqb k c) eqn:E.
  - apply String.eqb_eq in E. subst k. rewrite H. simpl.
    rewrite String.eqb_refl. reflexivity.
  - destruct (existsb (String.eqb k) names); simpl; [exact IH|].
    rewrite E. exact IH.
Qed.

Lemma well_formed_column_length d col vs :
  well_formed d -> get_column d col = Some vs -> List.length vs = nrows d.
Proof.
  unfold well_formed, get_column. generalize (nrows d) as n. intros n Hwf.
  induction Hwf as [|[k old] rest Hk _ IH]; simpl; [discriminate|].
  destruct (String.eqb k col); [|exact IH].
  intros [= <-]. exact Hk.
Qed.

End FrameProperties.

(** ** The country mapper inside the pipeline *)

Section CountryInPipeline.

Variable num_str : number -> string.

(** C4, as the code has it: an empty or missing country yields ["XX"] and
    a WARNING record of the logger; that record, like the one of an
    unknown country, reaches the log only.  Cleaning leaves both issue
    sequences of the splitter as they were. *)
Theorem country_fallbacks_reach_the_log_only s w d countries :
  df s = Some d ->
  get_column d country_col = Some countries ->
  exists s' w',
    clean_data num_str s w = (true, s', w')
    /\ issues s' = issues s
    /\ (forall c r, In c countries ->
          In r (snd (standardize_country num_str c)) -> In r (log w'))
    /\ (forall c, In c countries -> empty_value c ->
          standardize_country num_str c
          = ("XX", [(WARNING, "Empty country field detected")])).
Proof.
  intros Hd Hc. unfold clean_data. rewrite Hd.
  rewrite get_fold_apply_other by reflexivity.
  rewrite get_apply_other by discriminate.
  rewrite get_fold_apply_other by reflexivity.
  rewrite Hc. eexists _, _. split; [reflexivity|]. split; [reflexivity|]. split.
  - intros c r Hin Hr. cbn [emit emit_all log].
    apply in_or_app. left. apply in_or_app. left. apply in_or_app. right.
    apply in_concat. exists (snd (standardize_country num_str c)). split; [|exact Hr].
    rewrite map_map. apply in_map_iff. exists c. auto.
  - intros c _ [-> | ->]; reflexivity.
Qed.

End CountryInPipeline.

(** ** Reconciliation of the declared values *)

Section ReconciliationProperties.

Variable num_str : number -> string.
Variable fmt_2f : number -> string.




Lemma zip_with_diag {A C} (f : A -> A -> C) l :
  zip_with f l l = map (fun x => f x x) l.
Proof. induction l as [|x l IH]; simpl; [reflexivity|]. rewrite IH. reflexivity. Qed.


Lemma flagged_none k flags :
  (forall b, In b flags -> b = false) -> flagged k flags = [].
Proof.
  revert k. induction flags as [|b rest IH]; intros k H; simpl; [reflexivity|].
  rewrite (H b (or_introl eq_refl)). apply IH. intros b' Hb. apply H. right. exact Hb.
Qed.

(** *** A column and its cells *)

Lemma to_float_of_float (x : float) : to_float (of_float x) = Some x.
Proof. destruct x; reflexivity. Qed.

Lemma as_ints_cells vs zs :
  as_ints vs = Some zs -> vs = map (fun z => Num (Int z)) zs.
Proof.
  revert zs. induction vs as [|v rest IH]; simpl; intros zs H.
  - injection H as <-. reflexivity.
  - destruct v as [|t|[z|x]]; try discriminate.
    destruct (as_ints rest) as [ys|]; [|discriminate].
    injection H as <-. simpl. f_equal. apply IH. reflexivity.
Qed.

Lemma as_ints_map zs : as_ints (map (fun z => Num (Int z)) zs) = Some zs.
Proof. induction zs as [|z zs IH]; simpl; [reflexivity|]. rewrite IH. reflexivity. Qed.



Lemma as_floats_map xs : as_floats (map of_float xs) = Some xs.
Proof.
  induction xs as [|x xs IH]; simpl; [reflexivity|].
  rewrite to_float_of_float, IH. reflexivity.
Qed.

(** A column that has no text is read as a numeric column. *)
Lemma as_column_floats vs xs :
  as_floats vs = Some xs -> exists c, as_column vs = Some c.
Proof.
  intros H. unfold as_column. destruct (as_ints vs); [eauto|].
  rewrite H. simpl. eauto.
Qed.



(** The cells of a column are read back as a column with these cells. *)
Lemma as_column_cells c :
  exists c', as_column (cells c) = Some c' /\ cells c' = cells c.
Proof.
  destruct c as [zs|xs]; unfold as_column, cells.
  - rewrite as_ints_map. eauto.
  - destruct (as_ints (map of_float xs)) as [zs|] eqn:E.
    + exists (Int64 zs). split; [reflexivity|].
      symmetry. apply (as_ints_cells _ _ E).
    + rewrite as_floats_map. simpl. eauto.
Qed.

(** *** The column operators, row by row *)

Ltac by_rows x y :=
  revert y; induction x as [|p x IH]; intros [|q y]; simpl; try reflexivity;
  rewrite IH; try reflexivity; f_equal.


Lemma value_mismatch_rows a b :
  value_mismatch a b
  = zip_with (fun v e => fgt (distance v e) tolerance) (cells a) (cells b).
Proof.
  unfold value_mismatch, greater.
  destruct a as [x|x], b as [y|y]; unfold minus, absolute, cells, floats.
  - by_rows x y.
  - by_rows x y. destruct q; reflexivity.
  - by_rows x y. destruct p; reflexivity.
  - by_rows x y. destruct p, q; reflexivity.
Qed.

(** No number is beyond tolerance of itself. *)
Lemma distance_self (v : cell) : fgt (distance v v) tolerance = false.
Proof.
  destruct v as [|t|[z|[sg|sg|sg m e]]]; try reflexivity.
  - unfold distance. rewrite Z.sub_diag. reflexivity.
  - destruct sg; reflexivity.
  - destruct sg; reflexivity.
  - unfold distance, cell_float, float_of_number, float_of_real, fsub, SFsub.
    cbv zeta. rewrite Z.sub_diag. reflexivity.
Qed.

Lemma no_mismatch_with_itself c c' :
  cells c' = cells c -> flagged 0 (value_mismatch c' c) = [].
Proof.
  intros E. rewrite value_mismatch_rows, E, zip_with_diag. apply flagged_none.
  intros b Hb. apply in_map_iff in Hb as [v [<- _]]. apply distance_self.
Qed.

(** *** The step on a table of typed numbers *)





End ReconciliationProperties.

(** ** What the steps before emission need

    Their success rests on the columns they look up by label; how many
    columns the table has plays no part. *)

Section NamedColumns.

Variable num_str : number -> string.
Variable fmt_2f : number -> string.

(** Cleaning succeeds on a loaded table and leaves alone every column it
    does not clean. *)
Lemma clean_data_keeps_column s w d c :
  df s = Some d ->
  forallb (fun k => negb (String.eqb k c)) text_columns = true ->
  forallb (fun k => negb (String.eqb k c)) postal_cols = true ->
  phone_col <> c -> country_col <> c ->
  exists d' w',
    clean_data num_str s w = (true, set_df s d', w')
    /\ get_column d' c = get_column d c.
Proof.
  intros Hd Ht Hp Hph Hco. unfold clean_data. rewrite Hd.
  match goal with
  | |- context [get_column ?x country_col] => set (d3 := x)
  end.
  assert (H3 : get_column d3 c = get_column d c).
  { unfold d3. rewrite get_fold_apply_other by exact Hp.
    rewrite get_apply_other by exact Hph.
    apply get_fold_apply_other, Ht. }
  destruct (get_column d3 country_col) as [original|].
  - eexists _, _. split; [reflexivity|].
    rewrite get_set_other by exact Hco. exact H3.
  - eexists _, _. split; [reflexivity | exact H3].
Qed.

(** Reconciliation succeeds when its three columns hold numbers or nothing
    and the reference column is there, and leaves the reference column
    alone. *)
Lemma calculate_declared_values_succeeds s w d qty price value refs q p v :
  df s = Some d ->
  get_column d qty_col = Some qty -> as_floats qty = Some q ->
  get_column d price_col = Some price -> as_floats price = Some p ->
  get_column d value_col = Some value -> as_floats value = Some v ->
  get_column d ref_col = Some refs ->
  exists s' w' d',
    calculate_declared_values num_str fmt_2f s w = (true, s', w')
    /\ df s' = Some d'
    /\ get_column d' ref_col = Some refs.
Proof.
  intros Hd Hq Fq Hp Fp Hv Fv Hr. unfold calculate_declared_values.
  destruct (as_column_floats _ _ Fq) as [quantity Cq].
  destruct (as_column_floats _ _ Fp) as [unit_price Cp].
  destruct (as_column_floats _ _ Fv) as [declared Cv].
  rewrite Hd, Hq, Hp, Hv, Cq, Cp, Cv, Hr.
  destruct (flagged 0 (value_mismatch declared (times quantity unit_price)));
    eexists _, _, _; (split; [reflexivity|]); (split; [reflexivity|]);
    rewrite get_drop_other by reflexivity; [exact Hr|].
  rewrite get_set_other by discriminate. exact Hr.
Qed.

Lemma unique_from_incl seen vs v : In v (unique_from seen vs) -> In v vs.
Proof.
  revert seen. induction vs as [|x rest IH]; intros seen; simpl; [auto|].
  destruct (existsb (same_value x) seen); simpl.
  - intros H. right. exact (IH _ H).
  - intros [-> | H]; [left; reflexivity | right; exact (IH _ H)].
Qed.

Lemma cell_eq_refl v : isna v = false -> cell_eq v v = true.
Proof.
  destruct v as [|x|[z|[sg|sg|sg m e]]]; simpl; intros H;
    [discriminate | apply String.eqb_refl | apply Z.eqb_refl | | |].
  - reflexivity.
  - destruct sg; reflexivity.
  - unfold feq, SFeqb, SFcompare. cbn [float_of_real].
    rewrite Z.compare_refl, Pos.compare_cont_refl. destruct sg; reflexivity.
Qed.

Lemma first_index_found {A : Type} (f : A -> bool) l x :
  In x l -> f x = true -> exists i, first_index f l = Some i.
Proof.
  induction l as [|y l IH]; simpl; [contradiction|].
  intros Hin Hx. destruct (f y) eqn:E; [eauto|].
  destruct Hin as [-> | Hin]; [congruence|].
  destruct (IH Hin Hx) as [i ->]. simpl. eauto.
Qed.

Lemma validate_refs_succeeds d refs todo errors :
  (forall v, In v todo -> In v refs /\ isna v = false) ->
  fst (validate_refs num_str d refs todo errors) = true.
Proof.
  revert errors. induction todo as [|ref_num rest IH]; intros errors H; simpl; [reflexivity|].
  destruct (H ref_num (or_introl eq_refl)) as [Hin Hna].
  destruct (first_index_found (fun v => cell_eq v ref_num) refs ref_num Hin
              (cell_eq_refl _ Hna)) as [i ->].
  destruct (validate_address num_str (row_at d i) ref_num) as [is_valid errs].
  apply IH. intros v Hv. apply H. right. exact Hv.
Qed.

(** Address validation succeeds when the reference column is there and no
    reference number is missing; it leaves the table alone. *)
Lemma validate_addresses_succeeds s w d refs :
  df s = Some d ->
  get_column d ref_col = Some refs ->
  forallb (fun v => negb (isna v)) refs = true ->
  exists s' w', validate_addresses num_str s w = (true, s', w') /\ df s' = Some d.
Proof.
  intros Hd Hr Hna. unfold validate_addresses. rewrite Hd, Hr.
  pose proof (validate_refs_succeeds d refs (unique refs) (validation_errors s)) as Hok.
  destruct (validate_refs num_str d refs (unique refs) (validation_errors s))
    as [ok errors].
  simpl in Hok. rewrite Hok.
  - eexists _, _. split; [reflexivity | exact Hd].
  - intros v Hv. apply unique_from_incl in Hv. split; [exact Hv|].
    rewrite forallb_forall in Hna. apply negb_true_iff, Hna, Hv.
Qed.

(** A supported file that parses to a table with a reference in every row
    and numbers or nothing in its quantity, unit price and declared value
    columns passes every step before emission; the split takes the columns
    at positions 0 to 20 and 21 to 30 of the table the steps have left. *)
Lemma steps_before_emission_succeed env s w d refs qty price value q p v :
  path_exists env (input_file s) = true ->
  In (Py.lower (suffix (input_file s))) valid_extensions ->
  (if String.eqb (Py.lower (suffix (input_file s))) ".csv"
   then read_csv env (input_file s) else read_excel env (input_file s)) = Some d ->
  get_column d ref_col = Some refs ->
  forallb (fun v => negb (isna v)) refs = true ->
  get_column d qty_col = Some qty -> as_floats qty = Some q ->
  get_column d price_col = Some price -> as_floats price = Some p ->
  get_column d value_col = Some value -> as_floats value = Some v ->
  exists s1 w1 d1,
    before_emission num_str fmt_2f env s w = (true, s1, w1)
    /\ df s1 = Some d1
    /\ recipient_df s1 = Some (iloc_columns 0 21 d1)
    /\ commodity_df s1 = Some (iloc_columns 21 31 d1).
Proof.
  intros He Hx Hread Hr Hna Hq Fq Hp Fp Hv Fv.
  unfold before_emission, validate_input_file, load_data.
  rewrite He. cbn [negb].
  assert (Hx' : existsb (String.eqb (Py.lower (suffix (input_file s)))) valid_extensions
                = true).
  { apply existsb_exists. eexists. split; [exact Hx | apply String.eqb_refl]. }
  rewrite Hx'. cbn [negb]. rewrite Hread. cbn [negb].
  match goal with
  | |- context [clean_data num_str ?s0 ?w0] =>
      destruct (clean_data_keeps_column s0 w0 d ref_col eq_refl eq_refl eq_refl)
        as [d1 [w1 [Hc Kr]]]; try discriminate;
      destruct (clean_data_keeps_column s0 w0 d qty_col eq_refl eq_refl eq_refl)
        as [d1q [w1q [Hcq Kq]]]; try discriminate;
      destruct (clean_data_keeps_column s0 w0 d price_col eq_refl eq_refl eq_refl)
        as [d1p [w1p [Hcp Kp]]]; try discriminate;
      destruct (clean_data_keeps_column s0 w0 d value_col eq_refl eq_refl eq_refl)
        as [d1v [w1v [Hcv Kv]]]; try discriminate
  end.
  rewrite Hc in Hcq, Hcp, Hcv.
  injection Hcq as Eq _. injection Hcp as Ep _. injection Hcv as Ev _.
  subst d1q d1p d1v.
  rewrite Hc. cbn [negb].
  rewrite Hr in Kr. rewrite Hq in Kq. rewrite Hp in Kp. rewrite Hv in Kv.
  match goal with
  | |- context [calculate_declared_values num_str fmt_2f ?s1 ?w1] =>
      destruct (calculate_declared_values_succeeds s1 w1 d1 qty price value refs q p v
                  eq_refl Kq Fq Kp Fp Kv Fv Kr) as [s2 [w2 [d2 [Hcalc [Hd2 Hr2]]]]]
  end.
  rewrite Hcalc. cbn [negb].
  destruct (validate_addresses_succeeds s2 w2 d2 refs Hd2 Hr2 Hna) as [s3 [w3 [Hval Hd3]]].
  rewrite Hval. cbn [negb].
  unfold split_data. rewrite Hd3. eexists _, _, d2.
  split; [reflexivity|]. destruct s3; simpl in *. auto.
Qed.

(** X24: a supported file that parses to a table with a reference in every
    row and numbers or nothing in its quantity, unit price and declared
    value columns passes every step before emission, whatever its other
    columns and however many there are. *)
Theorem named_columns_suffice env s w d refs qty price value q p v :
  path_exists env (input_file s) = true ->
  In (Py.lower (suffix (input_file s))) valid_extensions ->
  (if String.eqb (Py.lower (suffix (input_file s))) ".csv"
   then read_csv env (input_file s) else read_excel env (input_file s)) = Some d ->
  get_column d ref_col = Some refs ->
  forallb (fun v => negb (isna v)) refs = true ->
  get_column d qty_col = Some qty -> as_floats qty = Some q ->
  get_column d price_col = Some price -> as_floats price = Some p ->
  get_column d value_col = Some value -> as_floats value = Some v ->
  exists s1 w1,
    before_emission num_str fmt_2f env s w = (true, s1, w1)
    /\ files w1 = files w.
Proof.
  intros He Hx Hread Hr Hna Hq Fq Hp Fp Hv Fv.
  destruct (steps_before_emission_succeed env s w d refs qty price value q p v
              He Hx Hread Hr Hna Hq Fq Hp Fp Hv Fv) as [s1 [w1 [d1 [Hrun _]]]].
  exists s1, w1. split; [exact Hrun|].
  pose proof (before_emission_files num_str fmt_2f env s w) as F.
  rewrite Hrun in F. exact F.
Qed.


End NamedColumns.

(** ** Sample runs *)

(** C3, as stated, fails: a plus sign inside the number is kept where it
    stands. *)
Lemma clean_phone_number_keeps_inner_plus :
  clean_phone_number plain_number (Str "555+1234") = "555+1234"
  /\ ~ digits_with_leading_plus (clean_phone_number plain_number (Str "555+1234")).
Proof.
  split; [reflexivity|]. intros [_ [_ H]].
  specialize (H 3%nat eq_refl). discriminate H.
Qed.

(** C6 on a filled address, and on the same address without its city. *)
Lemma validate_address_filled_address :
  (forall f, In f address_fields ->
             nonempty_field plain_number (series_get filled_address f))
  /\ validate_address plain_number filled_address (Num (Int 1)) = (true, [])
  /\ validate_address plain_number
       (series_set filled_address "CITY (required)" NA) (Num (Int 1))
     = (false, ["Ref#1: Missing required field: CITY (required)"]).
Proof.
  assert (H : forall f, In f address_fields ->
                        nonempty_field plain_number (series_get filled_address f)).
  { intros f Hf. simpl in Hf.
    destruct Hf as [<-|[<-|[<-|[<-|[<-|[<-|[]]]]]]];
      (split; [discriminate|]); simpl.
    - exists "A"%char. split; [simpl; auto | reflexivity].
    - exists "1"%char. split; [simpl; auto | reflexivity].
    - exists "L"%char. split; [simpl; auto | reflexivity].
    - exists "G"%char. split; [simpl; auto | reflexivity].
    - exists "N"%char. split; [simpl; auto | reflexivity].
    - exists "5"%char. split; [simpl; auto | reflexivity]. }
  split; [exact H|].
  destruct (validate_address_complete_or_one_missing plain_number filled_address
              (Num (Int 1)) H)
    as [Hok Hone].
  split; [exact Hok|].
  apply (Hone "CITY (required)" NA); [simpl; auto | left; reflexivity].
Defined.

(** C9 on [report.PDF]. *)
Lemma process_rejects_pdf :
  ~ In (Py.lower (suffix (input_file (new_splitter report_pdf)))) valid_extensions
  /\ exists w',
       process plain_number plain_2f (env_with manifest_30) None
         (new_splitter report_pdf) fresh
       = (false, new_splitter report_pdf, w')
       /\ files w' = files fresh.
Proof.
  assert (H : ~ In (Py.lower (suffix (input_file (new_splitter report_pdf))))
                valid_extensions).
  { vm_compute. intros [E|[E|[E|[]]]]; discriminate E. }
  split; [exact H|].
  apply (process_rejects_unsupported_extension plain_number plain_2f
           (env_with manifest_30) None (new_splitter report_pdf) fresh H).
Defined.





(** The arithmetic is that of the column types.  With 0.07 declared
    against 1 × 0.06 the float64 difference, 0.010000000000000009, is
    beyond the tolerance: the row is corrected. *)
Lemma float64_difference_is_flagged :
  let result := calculate_declared_values plain_number plain_2f
                  (loaded seven_cents) fresh in
  beyond_tolerance seven_cents 0 = true
  /\ validation_warnings (snd (fst result))
     = ["Ref#R1 Row2: Declared value corrected 0.07 → 0.06"]
  /\ cell_at (frame_of result) value_col 0 = amount 6 2.
Proof. cbv zeta. repeat split; vm_compute; reflexivity. Qed.

(** Two int64 columns multiply in int64: 3037000500 × 3037000500 wraps
    around, and the wrapped product replaces the declared value. *)
Lemma int64_product_wraps_around :
  let result := calculate_declared_values plain_number plain_2f
                  (loaded large_integers) fresh in
  product_at large_integers 0 = Num (Int (-9223372036709301616))
  /\ beyond_tolerance large_integers 0 = true
  /\ cell_at (frame_of result) value_col 0 = Num (Int (-9223372036709301616)).
Proof. cbv zeta. repeat split; vm_compute; reflexivity. Qed.

(** The tolerance is the float64 of the numeral 0.01. *)
Lemma tolerance_numeral : tolerance = decimal 1 2.
Proof. vm_compute. reflexivity. Qed.

(** C4, as stated, fails: the manifest with an empty country runs through
    the pipeline, its country becomes XX, the logger gets the warning and
    neither issue sequence receives anything. *)
Lemma empty_country_leaves_no_issue :
  let result := process plain_number plain_2f (env_with manifest_no_country) None
                  (new_splitter shipments_csv) fresh in
  fst (fst result) = true
  /\ cell_at (frame_of result) country_col 0 = Str "XX"
  /\ In (WARNING, "Empty country field detected") (log (snd result))
  /\ issues (snd (fst result)) = ([], [])
  /\ ~ surfaces_issue (new_splitter shipments_csv) (snd (fst result)).
Proof.
  cbv zeta. split; [vm_compute; reflexivity|]. split; [vm_compute; reflexivity|].
  split; [vm_compute; tauto|]. split; [vm_compute; reflexivity|].
  intros [H | H]; apply H; vm_compute; reflexivity.
Qed.

(** C4, as the code has it, on the manifest with an empty country. *)
Lemma cleaning_of_empty_country :
  df (loaded manifest_no_country) = Some manifest_no_country
  /\ get_column manifest_no_country country_col = Some [NA]
  /\ exists s' w',
       clean_data plain_number (loaded manifest_no_country) fresh = (true, s', w')
       /\ issues s' = issues (loaded manifest_no_country)
       /\ In (WARNING, "Empty country field detected") (log w')
       /\ standardize_country plain_number NA
          = ("XX", [(WARNING, "Empty country field detected")]).
Proof.
  split; [reflexivity|]. split; [reflexivity|].
  destruct (country_fallbacks_reach_the_log_only plain_number
              (loaded manifest_no_country) fresh manifest_no_country [NA]
              eq_refl eq_refl)
    as [s' [w' [Hrun [Hi [Hlog Hxx]]]]].
  exists s', w'. split; [exact Hrun|]. split; [exact Hi|]. split.
  - apply (Hlog NA); simpl; auto.
  - apply Hxx; [simpl; auto | left; reflexivity].
Defined.

(** C5 fails on a declared value left empty: the step completes, the row is
    not flagged, its declared value stays missing and the row is not within
    tolerance afterwards. *)
Theorem missing_declared_value_stays_missing :
  let result := calculate_declared_values plain_number plain_2f
                  (loaded no_declared_value) fresh in
  fst (fst result) = true
  /\ validation_warnings (snd (fst result)) = []
  /\ cell_at (frame_of result) qty_col 0 = Num (Int 2)
  /\ cell_at (frame_of result) price_col 0 = amount 500 2
  /\ cell_at (frame_of result) value_col 0 = NA
  /\ within_tolerance (frame_of result) 0 = false.
Proof. cbv zeta. repeat split; vm_compute; reflexivity. Qed.

(** X24 on the manifest of 30 columns. *)
Lemma thirty_columns_pass_before_emission :
  exists s1 w1,
    before_emission plain_number plain_2f (env_with manifest_30)
      (new_splitter shipments_csv) fresh = (true, s1, w1)
    /\ files w1 = files fresh.
Proof.
  apply (named_columns_suffice plain_number plain_2f (env_with manifest_30)
           (new_splitter shipments_csv) fresh manifest_30
           [Num (Int 1)] [Num (Int 2)] [amount 500 2] [amount 900 2]
           [float_of_int 2] [decimal 500 2] [decimal 900 2]);
    try reflexivity.
  vm_compute. tauto.
Defined.

(** ** Further properties of the cleaners *)

Section MoreCleanerProperties.

Variable num_str : number -> string.

Lemma clean_text_field_tidy (x : cell) :
  tidy_from true (clean_text_field num_str x) = true.
Proof. destruct x; [reflexivity | apply clean_text_tidy | apply clean_text_tidy]. Qed.

Lemma sforall_andb (p q : ascii -> bool) (s : string) :
  Py.sforall p s = true -> Py.sforall q s = true ->
  Py.sforall (fun c => p c && q c) s = true.
Proof.
  induction s as [|a r IH]; simpl; [reflexivity|]. intros Hp Hq.
  apply andb_true_iff in Hp as [Hp Hpr]. apply andb_true_iff in Hq as [Hq Hqr].
  rewrite Hp, Hq, IH by assumption. reflexivity.
Qed.

Lemma sforall_ext (p q : ascii -> bool) (s : string) :
  (forall c, p c = q c) -> Py.sforall p s = Py.sforall q s.
Proof.
  intros E. induction s as [|a r IH]; simpl; [reflexivity|]. rewrite E, IH. reflexivity.
Qed.

(** X1: a cleaned text holds no comma, no line feed, no carriage return and
    no tab. *)
Theorem clean_text_field_no_separator (x : cell) :
  Py.sforall (fun c => negb (is_separator c)) (clean_text_field num_str x) = true.
Proof.
  pose proof (clean_text_field_tidy x) as T.
  assert (H : forall a, a = ","%char \/ (Py.isspace a = true /\ a <> " "%char) ->
                        Py.sforall (fun c => negb (Ascii.eqb c a))
                                   (clean_text_field num_str x) = true)
    by (intros a Ha; exact (tidy_no_char true a _ T Ha)).
  rewrite (sforall_ext _ (fun c => (negb (Ascii.eqb c ",") && negb (Ascii.eqb c "010"))
                                   && (negb (Ascii.eqb c "013")
                                       && negb (Ascii.eqb c "009")))).
  - apply (sforall_andb (fun c => negb (Ascii.eqb c ",") && negb (Ascii.eqb c "010"))
                        (fun c => negb (Ascii.eqb c "013") && negb (Ascii.eqb c "009")));
      apply (sforall_andb (fun c => negb (Ascii.eqb c _)) (fun c => negb (Ascii.eqb c _)));
      apply H; auto; right; split; (reflexivity || discriminate).
  - intros c. unfold is_separator.
    destruct (Ascii.eqb c ","), (Ascii.eqb c "010"), (Ascii.eqb c "013"),
      (Ascii.eqb c "009"); reflexivity.
Qed.

Lemma tidy_trim (b : bool) (s : string) :
  tidy_from b s = true -> trim_from b s = true.
Proof.
  revert b. induction s as [|c r IH]; intros b; simpl; [reflexivity|].
  destruct (Py.isspace c).
  - intros H. repeat (apply andb_true_iff in H as [H ?]).
    rewrite H, (IH true) by assumption.
    repeat (apply andb_true_iff; split); auto.
  - intros H. apply andb_true_iff in H as [_ H]. apply IH, H.
Qed.

Lemma trim_spacing (b : bool) (s : string) (i : nat) (c : ascii) :
  trim_from b s = true ->
  String.get i s = Some c -> Py.isspace c = true ->
  c = " "%char /\ (b = true -> (0 < i)%nat)
  /\ exists c', String.get (S i) s = Some c' /\ Py.isspace c' = false.
Proof.
  revert b i. induction s as [|a r IH]; intros b i T G W; simpl in *; [discriminate|].
  destruct i as [|j].
  - injection G as ->. rewrite W in T.
    repeat (apply andb_true_iff in T as [T ?]).
    apply Ascii.eqb_eq in T. split; [exact T|]. split.
    + intros ->. discriminate.
    + destruct r as [|c' r']; [discriminate|]. exists c'. split; [reflexivity|].
      simpl in *. destruct (Py.isspace c'); [|reflexivity].
      rewrite andb_false_r in *. discriminate.
  - destruct (Py.isspace a).
    + repeat (apply andb_true_iff in T as [T ?]).
      destruct (IH true j) as [E [_ N]]; auto. repeat split; auto. lia.
    + destruct (IH false j) as [E [_ N]]; auto. repeat split; auto. lia.
Qed.

(** X2: in a cleaned text every whitespace character is a single space that
    stands between two other characters: none leads, none trails, no two
    are adjacent. *)
Theorem clean_text_field_single_inner_spaces (x : cell) :
  single_inner_spaces (clean_text_field num_str x).
Proof.
  intros i c G W.
  destruct (trim_spacing true _ i c (tidy_trim _ _ (clean_text_field_tidy x)) G W)
    as [E [P N]].
  repeat split; auto.
Qed.

(** *** What cleaning keeps *)

Lemma sfilter_after_sfilter (p q : ascii -> bool) (s : string) :
  (forall c, p c = true -> q c = true) ->
  Py.sfilter p (Py.sfilter q s) = Py.sfilter p s.
Proof.
  intros Hpq. induction s as [|c r IH]; simpl; [reflexivity|].
  destruct (q c) eqn:Q; simpl; rewrite IH; [reflexivity|].
  destruct (p c) eqn:P; [apply Hpq in P; congruence | reflexivity].
Qed.

Lemma sfilter_after_replace (p : ascii -> bool) (a b : ascii) (s : string) :
  p a = false -> p b = false ->
  Py.sfilter p (Py.replace_char a b s) = Py.sfilter p s.
Proof.
  intros Ha Hb. unfold Py.replace_char.
  induction s as [|c r IH]; simpl; [reflexivity|].
  rewrite IH. destruct (Ascii.eqb c a) eqn:E; [|reflexivity].
  apply Ascii.eqb_eq in E. subst c. rewrite Ha, Hb. reflexivity.
Qed.

Lemma sfilter_after_collapse (p : ascii -> bool) (b : bool) (s : string) :
  (forall c, Py.isspace c = true -> p c = false) ->
  Py.sfilter p (Py.collapse_from b s) = Py.sfilter p s.
Proof.
  intros Hp. revert b. induction s as [|c r IH]; intros b; simpl; [reflexivity|].
  destruct (Py.isspace c) eqn:W.
  - rewrite (Hp c W). destruct b; simpl; rewrite ?(Hp " "%char eq_refl); apply IH.
  - simpl. rewrite IH. reflexivity.
Qed.

Lemma sfilter_after_lstrip (p : ascii -> bool) (s : string) :
  (forall c, Py.isspace c = true -> p c = false) ->
  Py.sfilter p (Py.lstrip s) = Py.sfilter p s.
Proof.
  intros Hp. induction s as [|c r IH]; simpl; [reflexivity|].
  destruct (Py.isspace c) eqn:W; [rewrite (Hp c W); exact IH | reflexivity].
Qed.

Lemma sfilter_after_rstrip (p : ascii -> bool) (s : string) :
  (forall c, Py.isspace c = true -> p c = false) ->
  Py.sfilter p (Py.rstrip s) = Py.sfilter p s.
Proof.
  intros Hp. induction s as [|c r IH]; simpl; [reflexivity|].
  destruct (Py.rstrip r) as [|c' r'] eqn:R.
  - simpl in IH. rewrite <- IH.
    destruct (Py.isspace c) eqn:W; simpl; [rewrite (Hp c W)|]; reflexivity.
  - simpl in *. rewrite IH. reflexivity.
Qed.

Lemma sfilter_after_strip (p : ascii -> bool) (s : string) :
  (forall c, Py.isspace c = true -> p c = false) ->
  Py.sfilter p (Py.strip s) = Py.sfilter p s.
Proof.
  intros Hp. unfold Py.strip.
  rewrite sfilter_after_rstrip, sfilter_after_lstrip by exact Hp. reflexivity.
Qed.

Lemma visible_not_space (c : ascii) : Py.isspace c = true -> visible c = false.
Proof. intros W. unfold visible. rewrite W. reflexivity. Qed.

(** X3: cleaning a text loses nothing but commas and whitespace: the
    characters that are neither come out unchanged and in their order. *)
Theorem clean_text_field_keeps_visible (s : string) :
  Py.sfilter visible (clean_text_field num_str (Str s)) = Py.sfilter visible s.
Proof.
  change (clean_text_field num_str (Str s)) with (clean_text s). unfold clean_text.
  rewrite sfilter_after_strip by exact visible_not_space.
  unfold Py.sub_spaces. rewrite sfilter_after_collapse by exact visible_not_space.
  rewrite !sfilter_after_replace by reflexivity.
  apply sfilter_after_sfilter. intros c H. unfold visible, is_comma in H.
  apply andb_true_iff in H as [_ H]. exact H.
Qed.

(** X4: [remove_commas] leaves no comma and removes nothing else: the
    length drops by the number of commas, and a text without a comma is
    returned as it is. *)
Theorem remove_commas_removes_commas_only (s : string) :
  Py.sforall (fun c => negb (is_comma c)) (remove_commas num_str (Str s)) = true
  /\ (String.length (remove_commas num_str (Str s)) + Py.scount is_comma s
      = String.length s)%nat
  /\ (Py.scount is_comma s = 0%nat -> remove_commas num_str (Str s) = s).
Proof.
  unfold remove_commas, Py.remove_char, is_comma; simpl. repeat split.
  - apply (sfilter_sforall (fun c => negb (Ascii.eqb c ","))).
  - induction s as [|c r IH]; simpl; [reflexivity|].
    destruct (Ascii.eqb c ","); simpl; lia.
  - induction s as [|c r IH]; simpl; [reflexivity|].
    destruct (Ascii.eqb c ","); simpl; [discriminate|].
    intros H. rewrite IH by exact H. reflexivity.
Qed.

End MoreCleanerProperties.

(** ** Properties of the postal code cleaner *)

Section PostalProperties.

Variable num_str : number -> string.

Lemma islower_upper_char (c : ascii) : Py.islower (Py.upper_char c) = false.
Proof.
  destruct c as [b0 b1 b2 b3 b4 b5 b6 b7];
    destruct b0, b1, b2, b3, b4, b5, b6, b7; reflexivity.
Qed.

Lemma upper_no_lower (s : string) :
  Py.sforall (fun c => negb (Py.islower c)) (Py.upper s) = true.
Proof.
  unfold Py.upper. induction s as [|c r IH]; simpl; [reflexivity|].
  rewrite islower_upper_char, IH. reflexivity.
Qed.

Lemma upper_fixes_no_lower (s : string) :
  Py.sforall (fun c => negb (Py.islower c)) s = true -> Py.upper s = s.
Proof.
  unfold Py.upper. induction s as [|c r IH]; simpl; [reflexivity|].
  intros H. apply andb_true_iff in H as [Hc Hr]. rewrite (IH Hr).
  unfold Py.upper_char. apply negb_true_iff in Hc. rewrite Hc. reflexivity.
Qed.

Lemma sforall_lstrip (p : ascii -> bool) (s : string) :
  Py.sforall p s = true -> Py.sforall p (Py.lstrip s) = true.
Proof.
  induction s as [|c r IH]; simpl; [reflexivity|].
  intros H. destruct (Py.isspace c); [|exact H].
  apply andb_true_iff in H as [_ H]. apply IH, H.
Qed.

Lemma sforall_rstrip (p : ascii -> bool) (s : string) :
  Py.sforall p s = true -> Py.sforall p (Py.rstrip s) = true.
Proof.
  induction s as [|c r IH]; simpl; [reflexivity|].
  intros H. apply andb_true_iff in H as [Hc Hr]. specialize (IH Hr).
  destruct (Py.rstrip r) as [|c' r'].
  - destruct (Py.isspace c); simpl; rewrite ?Hc; reflexivity.
  - cbn [Py.sforall] in *. rewrite Hc, IH. reflexivity.
Qed.

Lemma sforall_collapse (p : ascii -> bool) (b : bool) (s : string) :
  p " "%char = true ->
  Py.sforall p s = true -> Py.sforall p (Py.collapse_from b s) = true.
Proof.
  intros Hsp. revert b. induction s as [|c r IH]; intros b H; simpl in *; [reflexivity|].
  apply andb_true_iff in H as [Hc Hr].
  destruct (Py.isspace c).
  - destruct b; simpl; rewrite ?Hsp; apply IH, Hr.
  - simpl. rewrite Hc. apply IH, Hr.
Qed.

(** *** The shape of a cleaned postal code *)

Lemma rstrip_all_space (s : string) :
  Py.sforall Py.isspace (Py.rstrip s) = true -> Py.rstrip s = "".
Proof.
  induction s as [|c r IH]; simpl; [reflexivity|].
  destruct (Py.rstrip r) as [|c' r'] eqn:R.
  - destruct (Py.isspace c) eqn:W; [reflexivity|]. simpl. rewrite W. discriminate.
  - intros H. cbn [Py.sforall] in H. apply andb_true_iff in H as [_ H].
    specialize (IH H). discriminate IH.
Qed.

Lemma collapse_empty (b : bool) (s : string) :
  Py.collapse_from b s = "" -> Py.sforall Py.isspace s = true.
Proof.
  revert b. induction s as [|c r IH]; intros b; simpl; [reflexivity|].
  destruct (Py.isspace c); [|discriminate].
  destruct b; [apply IH | discriminate].
Qed.

Lemma collapse_rstrip_trim (b : bool) (s : string) :
  trim_from b (Py.collapse_from b (Py.rstrip s)) = true.
Proof.
  revert b. induction s as [|c r IH]; intros b; simpl; [reflexivity|].
  destruct (Py.rstrip r) as [|c' r'] eqn:R.
  - destruct (Py.isspace c) eqn:W; [reflexivity|].
    simpl. rewrite W. simpl. rewrite W. reflexivity.
  - remember (String c' r') as t eqn:Et.
    cbn [Py.collapse_from]. destruct (Py.isspace c) eqn:W.
    + destruct b; [apply IH|].
      cbn [trim_from]. change (Py.isspace " ") with true. cbn iota.
      rewrite (IH true), andb_true_r.
      destruct (Py.collapse_from true t) eqn:E; [|reflexivity].
      apply collapse_empty in E. rewrite <- R in E.
      apply rstrip_all_space in E. rewrite R, Et in E. discriminate E.
    + cbn [trim_from]. rewrite W. apply IH.
Qed.

Lemma no_leading_space_lstrip (s : string) : no_leading_space (Py.lstrip s) = true.
Proof.
  induction s as [|c r IH]; simpl; [reflexivity|].
  destruct (Py.isspace c) eqn:W; [exact IH|]. simpl. rewrite W. reflexivity.
Qed.

Lemma no_leading_space_rstrip (s : string) :
  no_leading_space s = true -> no_leading_space (Py.rstrip s) = true.
Proof.
  destruct s as [|c r]; [reflexivity|]. cbn [no_leading_space Py.rstrip]. intros H.
  destruct (Py.rstrip r); [|exact H].
  apply negb_true_iff in H. rewrite H. cbn [no_leading_space]. rewrite H. reflexivity.
Qed.

Lemma collapse_flag_irrelevant (s : string) :
  no_leading_space s = true -> Py.collapse_from true s = Py.collapse_from false s.
Proof.
  destruct s as [|c r]; simpl; [reflexivity|].
  destruct (Py.isspace c); [discriminate | reflexivity].
Qed.

Lemma clean_postal_trim (s : string) :
  trim_from true (Py.sub_spaces (Py.strip s)) = true.
Proof.
  unfold Py.sub_spaces, Py.strip.
  rewrite <- collapse_flag_irrelevant
    by (apply no_leading_space_rstrip, no_leading_space_lstrip).
  apply collapse_rstrip_trim.
Qed.

Lemma lstrip_trim (s : string) : trim_from true s = true -> Py.lstrip s = s.
Proof.
  destruct s as [|c r]; simpl; [reflexivity|].
  destruct (Py.isspace c); [|reflexivity].
  rewrite andb_false_r. discriminate.
Qed.

Lemma rstrip_trim (b : bool) (s : string) : trim_from b s = true -> Py.rstrip s = s.
Proof.
  revert b. induction s as [|c r IH]; intros b H; simpl in *; [reflexivity|].
  destruct (Py.isspace c) eqn:E.
  - repeat (apply andb_true_iff in H as [H ?]).
    rewrite (IH true) by assumption.
    destruct r; [discriminate | reflexivity].
  - rewrite (IH false H). destruct r; reflexivity.
Qed.

Lemma collapse_trim (b b' : bool) (s : string) :
  trim_from b s = true -> (b' = true -> b = true) -> Py.collapse_from b' s = s.
Proof.
  revert b b'. induction s as [|c r IH]; intros b b' H Hb; simpl in *; [reflexivity|].
  destruct (Py.isspace c) eqn:E.
  - repeat (apply andb_true_iff in H as [H ?]).
    apply Ascii.eqb_eq in H. subst c.
    destruct b; [discriminate|].
    destruct b'; [specialize (Hb eq_refl); discriminate|].
    f_equal. apply (IH true); auto.
  - f_equal. apply (IH false); [exact H | discriminate].
Qed.

Lemma clean_postal_no_lower (s : string) :
  Py.sforall (fun c => negb (Py.islower c)) (Py.sub_spaces (Py.strip (Py.upper s))) = true.
Proof.
  apply sforall_collapse; [reflexivity|].
  apply sforall_rstrip, sforall_lstrip, upper_no_lower.
Qed.

(** X5: cleaning a cleaned postal code changes nothing. *)
Theorem clean_postal_code_idempotent (x : cell) :
  clean_postal_code num_str (Str (clean_postal_code num_str x))
  = clean_postal_code num_str x.
Proof.
  assert (H : forall s,
             Py.sub_spaces (Py.strip (Py.upper (Py.sub_spaces (Py.strip (Py.upper s)))))
             = Py.sub_spaces (Py.strip (Py.upper s))).
  { intros s. rewrite (upper_fixes_no_lower _ (clean_postal_no_lower s)).
    pose proof (clean_postal_trim (Py.upper s)) as T.
    unfold Py.strip at 1. rewrite (lstrip_trim _ T), (rstrip_trim true _ T).
    apply (collapse_trim true false _ T). discriminate. }
  destruct x as [|s|q]; [reflexivity | apply H | apply H].
Qed.

(** X6: a cleaned postal code holds no lowercase letter, and its only
    whitespace is single spaces between other characters. *)
Theorem clean_postal_code_shape (x : cell) :
  Py.sforall (fun c => negb (Py.islower c)) (clean_postal_code num_str x) = true
  /\ single_inner_spaces (clean_postal_code num_str x).
Proof.
  assert (T : trim_from true (clean_postal_code num_str x) = true)
    by (destruct x; [reflexivity | apply clean_postal_trim | apply clean_postal_trim]).
  split.
  - destruct x; [reflexivity | apply clean_postal_no_lower | apply clean_postal_no_lower].
  - intros i c G W.
    destruct (trim_spacing true _ i c T G W) as [E [P N]]. repeat split; auto.
Qed.

End PostalProperties.

(** ** Further properties of the country mapper *)

Section MoreCountryProperties.

Variable num_str : number -> string.

Lemma COUNTRY_CODES_checked : forallb alias_checked COUNTRY_CODES = true.
Proof. vm_compute. reflexivity. Qed.

Lemma upper_strip_empty (s : string) : Py.upper (Py.strip s) <> "" -> s <> "".
Proof. intros H ->. apply H. reflexivity. Qed.

(** X7: a country written as a name of the table, in any letter case and
    with blanks around it, gets the code of the table and nothing is
    logged; with one exception: "UK" is itself two letters, so the
    two-letter test returns it as "UK" and its entry (GB) is never
    reached. *)
Theorem standardize_country_known_alias (s k v : string) :
  In (k, v) COUNTRY_CODES ->
  Py.upper (Py.strip s) = k ->
  standardize_country num_str (Str s)
  = ((if String.eqb k "UK" then "UK" else v), []).
Proof.
  intros Hin Hk.
  pose proof (proj1 (forallb_forall _ _) COUNTRY_CODES_checked _ Hin) as C.
  unfold alias_checked in C. cbn [fst snd] in C.
  apply andb_true_iff in C as [Hne C].
  assert (Hs : String.eqb s "" = false).
  { apply String.eqb_neq, upper_strip_empty. rewrite Hk.
    apply String.eqb_neq, negb_true_iff, Hne. }
  unfold standardize_country. cbn [isna truthy py_str orb]. rewrite Hs. cbn [negb].
  rewrite Hk.
  destruct ((String.length k =? 2)%nat && Py.isalpha k).
  - rewrite C. apply String.eqb_eq in C. rewrite C. reflexivity.
  - apply andb_true_iff in C as [Huk C]. apply negb_true_iff in Huk. rewrite Huk.
    destruct (dict_get COUNTRY_CODES k) as [code|]; [|discriminate].
    apply String.eqb_eq in C. rewrite C. reflexivity.
Qed.

Lemma sforall_prefix (p : ascii -> bool) (n : nat) (s : string) :
  Py.sforall p s = true -> Py.sforall p (Py.prefix n s) = true.
Proof.
  revert s. induction n as [|n IH]; intros [|c r]; simpl; auto.
  intros H. apply andb_true_iff in H as [Hc Hr]. rewrite Hc. apply IH, Hr.
Qed.

Lemma COUNTRY_CODES_uppercase :
  Forall (fun code => Py.sforall (fun c => negb (Py.islower c)) code = true)
         (map snd COUNTRY_CODES).
Proof. apply Forall_forall. apply forallb_forall. vm_compute. reflexivity. Qed.

(** X8: whatever the input, the code returned holds none of the letters
    a to z. *)
Theorem standardize_country_no_lowercase (country : cell) :
  Py.sforall (fun c => negb (small_letter c)) (fst (standardize_country num_str country))
  = true.
Proof.
  unfold standardize_country.
  destruct (isna country || negb (truthy country)); [reflexivity|].
  set (country_clean := Py.upper (Py.strip (py_str num_str country))).
  assert (U : Py.sforall (fun c => negb (small_letter c)) country_clean = true)
    by apply upper_no_lower.
  destruct ((String.length country_clean =? 2)%nat && Py.isalpha country_clean);
    [exact U|].
  destruct (dict_get COUNTRY_CODES country_clean) as [code|] eqn:D; cbn [fst].
  - apply dict_get_In in D.
    exact (proj1 (Forall_forall _ _) COUNTRY_CODES_uppercase code D).
  - destruct (2 <=? String.length country_clean)%nat; [|reflexivity].
    apply sforall_prefix, U.
Qed.

Lemma isalpha_upper_char (c : ascii) :
  Py.isalpha_char (Py.upper_char c) = Py.isalpha_char c.
Proof.
  destruct c as [b0 b1 b2 b3 b4 b5 b6 b7];
    destruct b0, b1, b2, b3, b4, b5, b6, b7; reflexivity.
Qed.

Lemma upper_length (s : string) : String.length (Py.upper s) = String.length s.
Proof. unfold Py.upper. induction s; simpl; congruence. Qed.

Lemma sforall_isalpha_upper (s : string) :
  Py.sforall Py.isalpha_char (Py.smap Py.upper_char s) = Py.sforall Py.isalpha_char s.
Proof.
  induction s as [|a t IH]; simpl; [reflexivity|].
  rewrite isalpha_upper_char, IH. reflexivity.
Qed.

Lemma isalpha_upper (s : string) : Py.isalpha (Py.upper s) = Py.isalpha s.
Proof.
  destruct s as [|c r]; [reflexivity|].
  exact (sforall_isalpha_upper (String c r)).
Qed.

(** X9: any two letters of the ASCII alphabet, in either case and with
    blanks around them, are taken for a country code: they come back
    uppercased, nothing is logged and the table is not consulted. *)
Theorem standardize_country_two_letters (s : string) :
  String.length (Py.strip s) = 2%nat ->
  Py.sforall ascii_letter (Py.strip s) = true ->
  standardize_country num_str (Str s) = (Py.upper (Py.strip s), []).
Proof.
  intros Hlen Hletters.
  assert (Halpha : Py.isalpha (Py.strip s) = true).
  { destruct (Py.strip s); [discriminate Hlen | exact Hletters]. }
  assert (Hs : String.eqb s "" = false).
  { apply String.eqb_neq. intros ->. discriminate Hlen. }
  unfold standardize_country. cbn [isna truthy py_str orb]. rewrite Hs. cbn [negb].
  rewrite upper_length, Hlen, isalpha_upper, Halpha. reflexivity.
Qed.

End MoreCountryProperties.

(** X7 on "uk". *)
Lemma standardize_country_uk :
  In ("UK", "GB") COUNTRY_CODES
  /\ Py.upper (Py.strip "uk") = "UK"
  /\ standardize_country plain_number (Str "uk") = ("UK", []).
Proof.
  assert (H : In ("UK", "GB") COUNTRY_CODES) by (vm_compute; tauto).
  split; [exact H|]. split; [reflexivity|].
  apply (standardize_country_known_alias plain_number "uk" "UK" "GB" H eq_refl).
Defined.

(** X9 on " zz ". *)
Lemma standardize_country_zz :
  String.length (Py.strip " zz ") = 2%nat
  /\ Py.sforall ascii_letter (Py.strip " zz ") = true
  /\ standardize_country plain_number (Str " zz ") = ("ZZ", []).
Proof.
  split; [reflexivity|]. split; [reflexivity|].
  apply (standardize_country_two_letters plain_number " zz " eq_refl eq_refl).
Defined.

(** ** Further properties of the address validator *)

Section MoreValidatorProperties.

Variable num_str : number -> string.

Lemma lstrip_all_space (s : string) :
  Py.sforall Py.isspace s = true -> Py.lstrip s = "".
Proof.
  induction s as [|c r IH]; simpl; [reflexivity|].
  intros H. apply andb_true_iff in H as [Hc Hr]. rewrite Hc. apply IH, Hr.
Qed.

Lemma not_all_space_visible (s : string) :
  Py.sforall Py.isspace s = false -> has_visible_char s.
Proof.
  induction s as [|c r IH]; simpl; [discriminate|].
  destruct (Py.isspace c) eqn:W; simpl.
  - intros H. destruct (IH H) as [c' [Hin Hc']]. exists c'.
    split; [right; exact Hin | exact Hc'].
  - intros _. exists c. split; [left; reflexivity | exact W].
Qed.

Lemma blank_not_nonempty (v : cell) :
  is_blank num_str v = true -> ~ nonempty_field num_str v.
Proof.
  intros B N. apply nonempty_not_blank in N. congruence.
Qed.

Lemma not_blank_nonempty (v : cell) :
  is_blank num_str v = false -> nonempty_field num_str v.
Proof.
  unfold is_blank. intros B. apply orb_false_iff in B as [Hna Hs]. split.
  - intros ->. discriminate Hna.
  - destruct (Py.sforall Py.isspace (py_str num_str v)) eqn:A;
      [|apply not_all_space_visible, A].
    unfold Py.strip in Hs. rewrite (lstrip_all_space _ A) in Hs. discriminate Hs.
Qed.

(** X10: a required field passes exactly when the row has a value under
    its label whose text holds a character that is not whitespace; a label
    that is absent, a missing value, an empty text and a text of blanks
    only all give the error "Missing required field: <label>". *)
Theorem validate_required_fields_visible (row : Series) (field_name : string) :
  (validate_required_fields num_str row field_name = (true, "")
   <-> nonempty_field num_str (series_get row field_name))
  /\ (validate_required_fields num_str row field_name
      = (false, "Missing required field: " ++ field_name)
      <-> ~ nonempty_field num_str (series_get row field_name)).
Proof.
  unfold validate_required_fields.
  destruct (is_blank num_str (series_get row field_name)) eqn:B.
  - pose proof (blank_not_nonempty _ B) as N. split; split.
    + discriminate.
    + intros H. contradiction.
    + intros _. exact N.
    + reflexivity.
  - pose proof (not_blank_nonempty _ B) as N. split; split.
    + intros _. exact N.
    + reflexivity.
    + discriminate.
    + intros H. contradiction.
Qed.

(** X11: the validator reports every blank required field, one error each,
    in the fixed order attention, address line 1, city, country, postal
    code, phone; it stops at none of them, and the row is valid exactly
    when none is blank. *)
Theorem validate_address_reports_every_blank_field (row : Series) (ref_num : cell) :
  validate_address num_str row ref_num
  = (match blank_fields num_str row with [] => true | _ => false end,
     map (missing_error num_str ref_num) (blank_fields num_str row))
  /\ (List.length (snd (validate_address num_str row ref_num)) <= 6)%nat.
Proof.
  unfold validate_address, blank_fields, address_fields, required_fields, phone_field,
    missing_error.
  cbn [check_required app filter]. unfold validate_required_fields, phone_field.
  destruct (is_blank num_str (series_get row "SHIP TO ATTENTION (required)"));
    destruct (is_blank num_str (series_get row "SHIP TO ADDRESS LINE 1 (required)"));
    destruct (is_blank num_str (series_get row "CITY (required)"));
    destruct (is_blank num_str (series_get row "COUNTRY (required)"));
    destruct (is_blank num_str (series_get row "POSTAL CODE (required)"));
    destruct (is_blank num_str (series_get row "RECIPIENT PHONE # (required)"));
    (split; [reflexivity | cbn [app List.length snd]; lia]).
Qed.

Lemma phone_char_not_space (c : ascii) : phone_char c = true -> Py.isspace c = false.
Proof.
  destruct c as [b0 b1 b2 b3 b4 b5 b6 b7];
    destruct b0, b1, b2, b3, b4, b5, b6, b7; intros H;
    try reflexivity; discriminate H.
Qed.

Lemma sfilter_empty_scount (p : ascii -> bool) (s : string) :
  Py.sfilter p s = "" <-> Py.scount p s = 0%nat.
Proof.
  induction s as [|c r IH]; simpl; [tauto|].
  destruct (p c); simpl; [split; discriminate | exact IH].
Qed.

(** X12: after cleaning, the phone number of a row is reported as missing
    exactly when the original value was missing or held no digit and no
    plus sign, whatever else it held. *)
Theorem cleaned_phone_blank_iff_no_digit (phone : cell) :
  is_blank num_str (Str (clean_phone_number num_str phone)) = true
  <-> phone = NA \/ Py.scount phone_char (py_str num_str phone) = 0%nat.
Proof.
  assert (H : forall s,
             is_blank num_str (Str (Py.sfilter phone_char s)) = true
             <-> Py.scount phone_char s = 0%nat).
  { intros s. rewrite <- sfilter_empty_scount.
    pose proof (sfilter_sforall phone_char s) as A.
    destruct (Py.sfilter phone_char s) as [|c r] eqn:E; [split; reflexivity|].
    split; [|discriminate]. intros B. exfalso.
    simpl in A. apply andb_true_iff in A as [Hc _].
    apply phone_char_not_space in Hc.
    unfold is_blank in B. cbn [isna py_str orb] in B. unfold Py.strip in B.
    cbn [Py.lstrip] in B. rewrite Hc in B.
    apply String.eqb_eq in B. exact (rstrip_keeps_visible_head c r Hc B). }
  destruct phone as [|s|q]; unfold clean_phone_number; cbn [isna].
  - split; [auto | reflexivity].
  - rewrite H. cbn [py_str]. split; [auto | intros [E|E]; [discriminate | exact E]].
  - rewrite H. split; [auto | intros [E|E]; [discriminate | exact E]].
Qed.

End MoreValidatorProperties.

(** ** Properties of the address validation step *)

Section AddressStepProperties.

Variable num_str : number -> string.

Lemma validate_address_valid_no_errors (row : Series) (ref_num : cell) :
  fst (validate_address num_str row ref_num) = true ->
  snd (validate_address num_str row ref_num) = [].
Proof.
  unfold validate_address. cbv zeta. cbn [fst snd].
  destruct (if is_blank num_str (series_get row phone_field) then _ else _);
    [reflexivity | discriminate].
Qed.

Lemma validate_refs_first_rows d refs todo errors :
  (forall v, In v todo -> In v refs /\ isna v = false) ->
  validate_refs num_str d refs todo errors
  = (true,
     app errors
       (flat_map (fun ref_num =>
                    snd (validate_address num_str
                           (row_at d (first_row_of refs ref_num)) ref_num))
                 todo)).
Proof.
  revert errors. induction todo as [|ref_num rest IH]; intros errors H.
  - simpl. rewrite app_nil_r. reflexivity.
  - cbn [validate_refs flat_map]. unfold first_row_of at 1.
    destruct (H ref_num (or_introl eq_refl)) as [Hin Hna].
    destruct (first_index_found (fun v => cell_eq v ref_num) refs ref_num Hin
                (cell_eq_refl _ Hna)) as [i Hi].
    rewrite Hi.
    pose proof (validate_address_valid_no_errors (row_at d i) ref_num) as V.
    destruct (validate_address num_str (row_at d i) ref_num) as [is_valid errs].
    cbn [fst snd] in *.
    rewrite IH by (intros v Hv; apply H; right; exact Hv).
    destruct is_valid.
    + rewrite (V eq_refl). reflexivity.
    + rewrite app_assoc. reflexivity.
Qed.

(** X13: when every row has a reference number, address validation always
    succeeds, whatever the addresses look like.  It validates one row per
    distinct reference, the first that bears it, and appends that row's
    errors; later rows of the same reference are not looked at.  The table,
    the warnings and the files are left alone. *)
Theorem validate_addresses_checks_first_rows s w d refs :
  df s = Some d ->
  get_column d ref_col = Some refs ->
  forallb (fun v => negb (isna v)) refs = true ->
  exists w',
    validate_addresses num_str s w
    = (true, set_errors s (app (validation_errors s) (address_errors num_str d refs)), w')
    /\ files w' = files w.
Proof.
  intros Hd Hr Hna. unfold validate_addresses. rewrite Hd, Hr.
  rewrite validate_refs_first_rows.
  - fold (address_errors num_str d refs).
    eexists. split; [reflexivity|].
    destruct (app (validation_errors s) (address_errors num_str d refs)); reflexivity.
  - intros v Hv. apply unique_from_incl in Hv. split; [exact Hv|].
    rewrite forallb_forall in Hna. apply negb_true_iff, Hna, Hv.
Qed.

Lemma unique_from_keeps_NA seen vs :
  In NA vs -> existsb (same_value NA) seen = false -> In NA (unique_from seen vs).
Proof.
  revert seen. induction vs as [|v rest IH]; intros seen Hin Hseen; [contradiction|].
  cbn [unique_from]. destruct v as [|x|x].
  - rewrite Hseen. left. reflexivity.
  - destruct Hin as [E | Hin]; [discriminate E|].
    destruct (existsb (same_value (Str x)) seen); [apply IH; assumption|].
    right. apply IH; [exact Hin | exact Hseen].
  - destruct Hin as [E | Hin]; [discriminate E|].
    destruct (existsb (same_value (Num x)) seen); [apply IH; assumption|].
    right. apply IH; [exact Hin | exact Hseen].
Qed.

Lemma first_index_never {A : Type} (f : A -> bool) (l : list A) :
  (forall x, f x = false) -> first_index f l = None.
Proof.
  intros H. induction l as [|x l IH]; simpl; [reflexivity|].
  rewrite H, IH. reflexivity.
Qed.

Lemma validate_refs_fails_on_NA d refs todo errors :
  In NA todo -> fst (validate_refs num_str d refs todo errors) = false.
Proof.
  revert errors. induction todo as [|ref_num rest IH]; intros errors Hin; [contradiction|].
  cbn [validate_refs]. destruct Hin as [-> | Hin].
  - rewrite first_index_never; [reflexivity|]. intros x. destruct x; reflexivity.
  - destruct (first_index (fun v => cell_eq v ref_num) refs); [|reflexivity].
    destruct (validate_address num_str (row_at d _) ref_num). apply IH, Hin.
Qed.

(** X14: a table in which some row has no reference number fails address
    validation: the step returns failure, so the run stops there; it writes
    no file and adds no warning. *)
Theorem validate_addresses_fails_on_missing_reference s w d refs :
  df s = Some d ->
  get_column d ref_col = Some refs ->
  In NA refs ->
  exists s' w',
    validate_addresses num_str s w = (false, s', w')
    /\ validation_warnings s' = validation_warnings s
    /\ files w' = files w.
Proof.
  intros Hd Hr Hin. unfold validate_addresses. rewrite Hd, Hr.
  pose proof (validate_refs_fails_on_NA d refs (unique refs) (validation_errors s)
                (unique_from_keeps_NA [] refs Hin eq_refl)) as F.
  destruct (validate_refs num_str d refs (unique refs) (validation_errors s))
    as [ok errors].
  cbn [fst] in F. subst ok. eexists _, _. repeat split.
Qed.

End AddressStepProperties.

(** X13 on two rows of one recipient: the second row has no city, and no
    error is recorded. *)
Lemma validate_addresses_one_recipient :
  df (loaded one_recipient_two_rows) = Some one_recipient_two_rows
  /\ get_column one_recipient_two_rows ref_col = Some [Str "R1"; Str "R1"]
  /\ exists w',
       validate_addresses plain_number (loaded one_recipient_two_rows) fresh
       = (true, loaded one_recipient_two_rows, w').
Proof.
  split; [reflexivity|]. split; [reflexivity|].
  destruct (validate_addresses_checks_first_rows plain_number
              (loaded one_recipient_two_rows) fresh one_recipient_two_rows
              [Str "R1"; Str "R1"] eq_refl eq_refl eq_refl) as [w' [H _]].
  exists w'. exact H.
Defined.

(** X14 on a table whose second row has no reference. *)
Lemma validate_addresses_missing_reference :
  df (loaded missing_reference) = Some missing_reference
  /\ get_column missing_reference ref_col = Some [Str "R1"; NA]
  /\ exists s' w',
       validate_addresses plain_number (loaded missing_reference) fresh = (false, s', w').
Proof.
  split; [reflexivity|]. split; [reflexivity|].
  destruct (validate_addresses_fails_on_missing_reference plain_number
              (loaded missing_reference) fresh missing_reference [Str "R1"; NA]
              eq_refl eq_refl (or_intror (or_introl eq_refl)))
    as [s' [w' [H _]]].
  exists s', w'. exact H.
Defined.

(** ** Properties of the cleaning step *)

Section CleaningStepProperties.

Variable num_str : number -> string.

Lemma replace_column_names cols c vs :
  map fst (replace_column cols c vs) = map fst cols.
Proof.
  induction cols as [|[k old] rest IH]; simpl; [reflexivity|].
  destruct (String.eqb k c); simpl; [reflexivity | rewrite IH; reflexivity].
Qed.

Lemma get_column_has d c vs : get_column d c = Some vs -> has_column d c = true.
Proof.
  unfold get_column, has_column, column_names.
  induction (columns d) as [|[k old] rest IH]; simpl; [discriminate|].
  rewrite (String.eqb_sym c k). destruct (String.eqb k c); [reflexivity | exact IH].
Qed.

Lemma replace_column_well_formed n cols c vs :
  Forall (fun kv : string * list cell => List.length (snd kv) = n) cols ->
  List.length vs = n ->
  Forall (fun kv : string * list cell => List.length (snd kv) = n)
         (replace_column cols c vs).
Proof.
  intros H Hvs. induction H as [|[k old] rest Hk Hrest IH]; simpl; [constructor|].
  destruct (String.eqb k c); constructor; auto.
Qed.

(** Assigning a column that exists, with as many cells as before, keeps
    the labels, their order, the number of rows and the shape. *)
Lemma set_existing_column_schema d c old vs :
  get_column d c = Some old ->
  List.length vs = List.length old ->
  column_names (set_column d c vs) = column_names d
  /\ nrows (set_column d c vs) = nrows d
  /\ (well_formed d -> well_formed (set_column d c vs)).
Proof.
  intros Hc Hlen. unfold set_column, column_names, well_formed.
  rewrite (get_column_has d c old Hc). cbn [columns nrows].
  split; [apply replace_column_names|]. split; [reflexivity|].
  intros Hwf. apply replace_column_well_formed; [exact Hwf|].
  rewrite Hlen. apply (well_formed_column_length d c old Hwf Hc).
Qed.

Lemma apply_column_schema f d c :
  column_names (apply_column f d c) = column_names d
  /\ nrows (apply_column f d c) = nrows d
  /\ (well_formed d -> well_formed (apply_column f d c)).
Proof.
  unfold apply_column. destruct (get_column d c) as [old|] eqn:Hc; [|auto].
  apply (set_existing_column_schema d c old); [exact Hc | apply length_map].
Qed.

Lemma fold_apply_column_schema f cols d :
  column_names (fold_left (apply_column f) cols d) = column_names d
  /\ nrows (fold_left (apply_column f) cols d) = nrows d
  /\ (well_formed d -> well_formed (fold_left (apply_column f) cols d)).
Proof.
  revert d. induction cols as [|c cols IH]; intros d; simpl; [auto|].
  destruct (IH (apply_column f d c)) as [N [R W]].
  destruct (apply_column_schema f d c) as [N' [R' W']].
  split; [congruence|]. split; [congruence | auto].
Qed.

(** X15: cleaning succeeds on every loaded table and changes cells only:
    the labels of the columns, their order and the number of rows stay as
    they were, and so does the shape of the table; no issue is recorded and
    no file is written. *)
Theorem clean_data_keeps_schema s w d :
  df s = Some d ->
  exists d' w',
    clean_data num_str s w = (true, set_df s d', w')
    /\ column_names d' = column_names d
    /\ nrows d' = nrows d
    /\ (well_formed d -> well_formed d')
    /\ files w' = files w.
Proof.
  intros Hd. unfold clean_data. rewrite Hd.
  match goal with
  | |- context [get_column ?x country_col] => set (d3 := x)
  end.
  assert (S3 : column_names d3 = column_names d /\ nrows d3 = nrows d
               /\ (well_formed d -> well_formed d3)).
  { unfold d3.
    match goal with
    | |- context [fold_left ?f postal_cols ?x] =>
        destruct (fold_apply_column_schema
                    (fun v => Str (clean_postal_code num_str v)) postal_cols x)
          as [N3 [R3 W3]]
    end.
    match goal with
    | |- context [apply_column ?f ?x phone_col] =>
        destruct (apply_column_schema f x phone_col) as [N2 [R2 W2]]
    end.
    destruct (fold_apply_column_schema
                (fun v => Str (clean_text_field num_str v)) text_columns d)
      as [N1 [R1 W1]].
    split; [congruence|]. split; [congruence | auto]. }
  destruct S3 as [N3 [R3 W3]].
  destruct (get_column d3 country_col) as [original|] eqn:Hc.
  - eexists _, _. split; [reflexivity|].
    destruct (set_existing_column_schema d3 country_col original
                (map Str (map fst (map (standardize_country num_str) original))) Hc)
      as [N4 [R4 W4]]; [rewrite !length_map; reflexivity|].
    split; [congruence|]. split; [congruence|]. split; [auto | reflexivity].
  - eexists _, _. split; [reflexivity|]. auto.
Qed.

(** *** The country column after cleaning *)

Lemma isalpha_char_not_space (c : ascii) :
  Py.isalpha_char c = true -> Py.isspace c = false.
Proof.
  destruct c as [b0 b1 b2 b3 b4 b5 b6 b7];
    destruct b0, b1, b2, b3, b4, b5, b6, b7; intros H;
    try reflexivity; discriminate H.
Qed.

Lemma isspace_upper_char (c : ascii) : Py.isspace (Py.upper_char c) = Py.isspace c.
Proof.
  destruct c as [b0 b1 b2 b3 b4 b5 b6 b7];
    destruct b0, b1, b2, b3, b4, b5, b6, b7; reflexivity.
Qed.

Lemma COUNTRY_CODES_head_visible :
  Forall (fun code => head_visible code = true) (map snd COUNTRY_CODES).
Proof. apply Forall_forall. apply forallb_forall. vm_compute. reflexivity. Qed.

Lemma head_visible_upper_strip (s : string) :
  Py.upper (Py.strip s) <> "" -> head_visible (Py.upper (Py.strip s)) = true.
Proof.
  pose proof (no_leading_space_rstrip _ (no_leading_space_lstrip s)) as L.
  fold (Py.strip s) in L. destruct (Py.strip s) as [|c r]; [intros H; contradiction|].
  intros _. simpl in *. rewrite isspace_upper_char. exact L.
Qed.

Lemma standardize_country_head_visible (country : cell) :
  head_visible (fst (standardize_country num_str country)) = true.
Proof.
  unfold standardize_country.
  destruct (isna country || negb (truthy country)); [reflexivity|].
  set (country_clean := Py.upper (Py.strip (py_str num_str country))).
  assert (V : country_clean <> "" -> head_visible country_clean = true)
    by apply head_visible_upper_strip.
  destruct ((String.length country_clean =? 2)%nat && Py.isalpha country_clean) eqn:E.
  - cbn [fst]. apply V. intros Z. rewrite Z in E. discriminate E.
  - destruct (dict_get COUNTRY_CODES country_clean) as [code|] eqn:D; cbn [fst].
    + apply dict_get_In in D.
      exact (proj1 (Forall_forall _ _) COUNTRY_CODES_head_visible code D).
    + destruct (2 <=? String.length country_clean)%nat eqn:L; [|reflexivity].
      destruct country_clean as [|c r]; [discriminate L|].
      specialize (V ltac:(discriminate)). destruct r; [discriminate L | exact V].
Qed.

Lemma head_visible_not_blank (code : string) :
  head_visible code = true -> is_blank num_str (Str code) = false.
Proof.
  destruct code as [|c r]; [discriminate|]. cbn [head_visible]. intros H.
  apply negb_true_iff in H. apply nonempty_not_blank. split; [discriminate|].
  exists c. split; [left; reflexivity | exact H].
Qed.

Lemma series_get_row_at d col i : series_get (row_at d i) col = cell_at d col i.
Proof.
  unfold row_at, cell_at, get_column.
  induction (columns d) as [|[k vs] rest IH]; simpl; [reflexivity|].
  destruct (String.eqb k col); [reflexivity | exact IH].
Qed.

(** X16: once a table with a country column is cleaned, every row holds
    there the code the mapper returns for its original cell, and the
    required-field check of the country passes on every row: whatever the
    cell held, empty or missing included, cleaning has put a code in its
    place, so an absent country is never reported as a missing field. *)
Theorem cleaned_country_is_never_missing s w d countries :
  df s = Some d ->
  get_column d country_col = Some countries ->
  exists d' w',
    clean_data num_str s w = (true, set_df s d', w')
    /\ forall i, (i < List.length countries)%nat ->
         validate_required_fields num_str (row_at d' i) country_col = (true, "")
         /\ series_get (row_at d' i) country_col
            = Str (fst (standardize_country num_str (nth i countries NA))).
Proof.
  intros Hd Hc. unfold clean_data. rewrite Hd.
  rewrite get_fold_apply_other by reflexivity.
  rewrite get_apply_other by discriminate.
  rewrite get_fold_apply_other by reflexivity.
  rewrite Hc. eexists _, _. split; [reflexivity|]. intros i Hi.
  unfold validate_required_fields. rewrite series_get_row_at.
  unfold cell_at. rewrite get_set_same.
  rewrite !map_map.
  set (code_of := fun c => Str (fst (standardize_country num_str c))).
  rewrite (nth_indep (map code_of countries) NA (code_of NA))
    by (rewrite length_map; exact Hi).
  rewrite (map_nth code_of). unfold code_of.
  rewrite head_visible_not_blank by apply standardize_country_head_visible.
  split; reflexivity.
Qed.

End CleaningStepProperties.

(** X15 on the manifest of 30 columns. *)
Lemma clean_data_thirty_columns :
  df (loaded manifest_30) = Some manifest_30
  /\ exists d' w',
       clean_data plain_number (loaded manifest_30) fresh
       = (true, set_df (loaded manifest_30) d', w')
       /\ column_names d' = column_names manifest_30
       /\ nrows d' = 1%nat.
Proof.
  split; [reflexivity|].
  destruct (clean_data_keeps_schema plain_number (loaded manifest_30) fresh manifest_30
              eq_refl) as [d' [w' [H [N [R _]]]]].
  exists d', w'. split; [exact H|]. split; [exact N | exact R].
Defined.

(** X16 on a manifest whose country is unknown. *)
Lemma cleaned_unknown_country :
  df (loaded manifest_unknown_country) = Some manifest_unknown_country
  /\ get_column manifest_unknown_country country_col = Some [Str "  atlantis "]
  /\ exists d' w',
       clean_data plain_number (loaded manifest_unknown_country) fresh
       = (true, set_df (loaded manifest_unknown_country) d', w')
       /\ validate_required_fields plain_number (row_at d' 0) country_col = (true, "").
Proof.
  split; [reflexivity|]. split; [reflexivity|].
  destruct (cleaned_country_is_never_missing plain_number
              (loaded manifest_unknown_country) fresh manifest_unknown_country
              [Str "  atlantis "] eq_refl eq_refl) as [d' [w' [H V]]].
  exists d', w'. split; [exact H|]. apply (V 0%nat). simpl. lia.
Defined.

(** ** Further properties of the reconciliation step *)

Section MoreReconciliationProperties.

Variable num_str : number -> string.
Variable fmt_2f : number -> string.

Lemma drop_columns_names d names :
  column_names (drop_columns d names)
  = filter (fun k => negb (existsb (String.eqb k) names)) (column_names d).
Proof.
  unfold column_names, drop_columns; cbn [columns].
  induction (columns d) as [|[k vs] rest IH]; simpl; [reflexivity|].
  destruct (existsb (String.eqb k) names); simpl; rewrite IH; reflexivity.
Qed.

Lemma set_present_column_names d c old vs :
  get_column d c = Some old -> column_names (set_column d c vs) = column_names d.
Proof.
  intros Hc. unfold set_column, column_names. rewrite (get_column_has d c old Hc).
  apply replace_column_names.
Qed.

(** X17: when the reconciliation step succeeds, the table keeps its rows
    and its columns in their order, except that columns of the input that
    bear one of the scratch labels [_calculated_value] and [_value_mismatch]
    are gone; the errors recorded so far are untouched and no file is
    written. *)
Theorem calculate_declared_values_keeps_columns s w s' w' d :
  df s = Some d ->
  calculate_declared_values num_str fmt_2f s w = (true, s', w') ->
  exists d',
    df s' = Some d'
    /\ column_names d' = without_scratch (column_names d)
    /\ nrows d' = nrows d
    /\ validation_errors s' = validation_errors s
    /\ files w' = files w.
Proof.
  intros Hd. unfold calculate_declared_values. rewrite Hd.
  destruct (get_column d qty_col) as [qty|]; [|discriminate].
  destruct (get_column d price_col) as [price|]; [|discriminate].
  destruct (get_column d value_col) as [value|] eqn:Hv; [|discriminate].
  destruct (as_column qty) as [q|]; [|discriminate].
  destruct (as_column price) as [p|]; [|discriminate].
  destruct (as_column value) as [v|]; [|discriminate].
  destruct (flagged 0 (value_mismatch v (times q p))) as [|i0 rows].
  - intros [= <- <-]. eexists. split; [reflexivity|]. split; [apply drop_columns_names|].
    repeat split.
  - destruct (get_column d ref_col) as [refs|]; [|discriminate].
    intros [= <- <-]. eexists. split; [reflexivity|]. split.
    + rewrite drop_columns_names, (set_present_column_names d value_col value) by exact Hv.
      reflexivity.
    + repeat split.
Qed.

(** X18: when the quantity, the unit price or the declared value column
    is missing, the reconciliation step fails: it returns failure, which
    ends the run, records no warning and no error and writes no file. *)
Theorem calculate_declared_values_fails_on_missing_column s w d col :
  df s = Some d ->
  In col [qty_col; price_col; value_col] ->
  get_column d col = None ->
  exists s' w',
    calculate_declared_values num_str fmt_2f s w = (false, s', w')
    /\ issues s' = issues s
    /\ files w' = files w.
Proof.
  intros Hd Hin Hnone. unfold calculate_declared_values. rewrite Hd.
  cbn [In] in Hin. destruct Hin as [<- | [<- | [<- | []]]]; rewrite Hnone.
  - eexists _, _. repeat split.
  - destruct (get_column d qty_col); eexists _, _; repeat split.
  - destruct (get_column d qty_col); destruct (get_column d price_col);
      eexists _, _; repeat split.
Qed.

Lemma drop_columns_idempotent d names :
  drop_columns (drop_columns d names) names = drop_columns d names.
Proof.
  unfold drop_columns; cbn [columns nrows]. f_equal.
  induction (columns d) as [|kv rest IH]; simpl; [reflexivity|].
  destruct (negb (existsb (String.eqb (fst kv)) names)) eqn:E; simpl;
    [rewrite E, IH; reflexivity | exact IH].
Qed.

(** The two outcomes of a successful step. *)
Lemma calculate_declared_values_outcome s w s' w' d :
  df s = Some d ->
  calculate_declared_values num_str fmt_2f s w = (true, s', w') ->
  exists qty price value quantity unit_price declared,
    get_column d qty_col = Some qty /\ as_column qty = Some quantity
    /\ get_column d price_col = Some price /\ as_column price = Some unit_price
    /\ get_column d value_col = Some value /\ as_column value = Some declared
    /\ ((flagged 0 (value_mismatch declared (times quantity unit_price)) = []
         /\ s' = set_df s (drop_columns d scratch_columns))
        \/ exists warnings,
             s' = set_df (add_warnings s warnings)
                    (drop_columns
                       (set_column d value_col (cells (times quantity unit_price)))
                       scratch_columns)).
Proof.
  intros Hd. unfold calculate_declared_values. rewrite Hd.
  destruct (get_column d qty_col) as [qty|]; [|discriminate].
  destruct (get_column d price_col) as [price|]; [|discriminate].
  destruct (get_column d value_col) as [value|]; [|discriminate].
  destruct (as_column qty) as [quantity|] eqn:Cq; [|discriminate].
  destruct (as_column price) as [unit_price|] eqn:Cp; [|discriminate].
  destruct (as_column value) as [declared|] eqn:Cv; [|discriminate].
  cbv zeta.
  destruct (flagged 0 (value_mismatch declared (times quantity unit_price)))
    as [|i0 rows] eqn:R.
  - intros [= <- _]. exists qty, price, value, quantity, unit_price, declared.
    repeat (split; [first [reflexivity | assumption]|]).
    left. split; [exact R | reflexivity].
  - destruct (get_column d ref_col) as [refs|]; [|discriminate].
    intros [= <- _]. exists qty, price, value, quantity, unit_price, declared.
    repeat (split; [first [reflexivity | assumption]|]). right. eexists. reflexivity.
Qed.

(** The step on a table in which it flags no row. *)
Lemma calculate_declared_values_no_mismatch s w d qty price value
    quantity unit_price declared :
  df s = Some d ->
  get_column d qty_col = Some qty -> as_column qty = Some quantity ->
  get_column d price_col = Some price -> as_column price = Some unit_price ->
  get_column d value_col = Some value -> as_column value = Some declared ->
  flagged 0 (value_mismatch declared (times quantity unit_price)) = [] ->
  exists w1,
    calculate_declared_values num_str fmt_2f s w
    = (true, set_df s (drop_columns d scratch_columns), w1).
Proof.
  intros Hd Hq Cq Hp Cp Hv Cv Hnone. unfold calculate_declared_values.
  rewrite Hd, Hq, Hp, Hv, Cq, Cp, Cv. cbv zeta. rewrite Hnone.
  eexists. reflexivity.
Qed.

(** X19: on a table whose quantity, unit price and declared value are
    numbers in every row, a second pass of the reconciliation step over the
    result of the first finds nothing to correct: it succeeds, records no
    further warning and leaves the splitter exactly as the first pass left
    it. *)
Theorem reconciliation_second_pass_changes_nothing s w s1 w1 d :
  df s = Some d ->
  complete_numbers d ->
  calculate_declared_values num_str fmt_2f s w = (true, s1, w1) ->
  exists w2, calculate_declared_values num_str fmt_2f s1 w1 = (true, s1, w2).
Proof.
  intros Hd _ Hrun.
  destruct (calculate_declared_values_outcome s w s1 w1 d Hd Hrun)
    as [qty [price [value [quantity [unit_price [declared
          [Hq [Cq [Hp [Cp [Hv [Cv Hcase]]]]]]]]]]]].
  destruct Hcase as [[Hnone ->] | [warnings ->]].
  - destruct (calculate_declared_values_no_mismatch
                (set_df s (drop_columns d scratch_columns)) w1
                (drop_columns d scratch_columns) qty price value
                quantity unit_price declared eq_refl) as [w2 H2]; try assumption;
      try (rewrite get_drop_other by reflexivity; assumption).
    exists w2. rewrite H2, drop_columns_idempotent. destruct s; reflexivity.
  - destruct (as_column_cells (times quantity unit_price)) as [again [Ca Ea]].
    set (d1 := drop_columns
                 (set_column d value_col (cells (times quantity unit_price)))
                 scratch_columns).
    destruct (calculate_declared_values_no_mismatch
                (set_df (add_warnings s warnings) d1) w1 d1
                qty price (cells (times quantity unit_price))
                quantity unit_price again eq_refl) as [w2 H2]; try assumption.
    + unfold d1. rewrite get_drop_other by reflexivity.
      rewrite get_set_other by (intros E; discriminate E). exact Hq.
    + unfold d1. rewrite get_drop_other by reflexivity.
      rewrite get_set_other by (intros E; discriminate E). exact Hp.
    + unfold d1. rewrite get_drop_other by reflexivity. apply get_set_same.
    + apply no_mismatch_with_itself, Ea.
    + exists w2. rewrite H2. unfold d1. rewrite drop_columns_idempotent.
      destruct s; reflexivity.
Qed.

End MoreReconciliationProperties.

(** ** Properties of the split and of the emission *)

Section EmissionProperties.

Variable num_str : number -> string.
Variable fmt_2f : number -> string.

Lemma firstn_then_firstn_skipn {A : Type} (a b : nat) (l : list A) :
  app (firstn a l) (firstn b (skipn a l)) = firstn (a + b) l.
Proof.
  revert l. induction a as [|a IH]; intros l; [reflexivity|].
  destruct l as [|x l]; simpl; [destruct b; reflexivity|].
  rewrite IH. reflexivity.
Qed.

(** X20: the split cuts the first 31 columns of the table in two without
    losing, repeating or reordering any: the recipient columns followed by
    the commodity columns are the first 31 columns, hence the whole table
    when it has 31 columns; both parts keep every row, and the table itself
    and the issues recorded are left alone. *)
Theorem split_data_partitions_columns s w d :
  df s = Some d ->
  exists r c w',
    split_data s w = (true, set_split s r c, w')
    /\ app (columns r) (columns c) = firstn 31 (columns d)
    /\ (List.length (columns d) = 31%nat -> app (columns r) (columns c) = columns d)
    /\ nrows r = nrows d /\ nrows c = nrows d.
Proof.
  intros Hd. unfold split_data. rewrite Hd. eexists _, _, _.
  split; [reflexivity|].
  assert (P : app (columns (iloc_columns RECIPIENT_COLS_START RECIPIENT_COLS_END d))
                  (columns (iloc_columns COMMODITY_COLS_START COMMODITY_COLS_END d))
              = firstn 31 (columns d))
    by apply (firstn_then_firstn_skipn 21 10).
  split; [exact P|]. split; [|split; reflexivity].
  intros L. rewrite P, <- L. apply firstn_all.
Qed.

(** *** What a successful run has written *)

Lemma validate_input_file_true env s w w' :
  validate_input_file env s w = (true, w') -> files w' = files w.
Proof.
  intros H. pose proof (validate_input_file_files env s w) as F.
  rewrite H in F. exact F.
Qed.

Lemma load_data_input_file env s w :
  input_file (snd (fst (load_data env s w))) = input_file s.
Proof. unfold load_data. repeat break_match; reflexivity. Qed.

Lemma clean_data_input_file s w :
  input_file (snd (fst (clean_data num_str s w))) = input_file s.
Proof.
  unfold clean_data. destruct (df s) as [d|]; [|reflexivity].
  destruct (get_column _ country_col); reflexivity.
Qed.

Lemma calculate_declared_values_input_file s w :
  input_file (snd (fst (calculate_declared_values num_str fmt_2f s w))) = input_file s.
Proof. unfold calculate_declared_values. repeat break_match; reflexivity. Qed.

Lemma validate_addresses_input_file s w :
  input_file (snd (fst (validate_addresses num_str s w))) = input_file s.
Proof. unfold validate_addresses. repeat break_match; reflexivity. Qed.

Lemma split_data_input_file s w :
  input_file (snd (fst (split_data s w))) = input_file s.
Proof. unfold split_data. repeat break_match; reflexivity. Qed.

Lemma before_emission_input_file env s w :
  input_file (snd (fst (before_emission num_str fmt_2f env s w))) = input_file s.
Proof.
  unfold before_emission.
  set (w0 := emit INFO rule (emit INFO _ (emit INFO rule w))).
  destruct (validate_input_file env s w0) as [ok1 w1].
  destruct ok1; simpl; [|reflexivity].
  pose proof (load_data_input_file env s w1) as H2.
  destruct (load_data env s w1) as [[ok2 s2] w2]. simpl in H2.
  destruct ok2; simpl; [|exact H2].
  pose proof (clean_data_input_file s2 w2) as H3.
  destruct (clean_data num_str s2 w2) as [[ok3 s3] w3]. simpl in H3.
  destruct ok3; simpl; [|congruence].
  pose proof (calculate_declared_values_input_file s3 w3) as H4.
  destruct (calculate_declared_values num_str fmt_2f s3 w3) as [[ok4 s4] w4]. simpl in H4.
  destruct ok4; simpl; [|congruence].
  pose proof (validate_addresses_input_file s4 w4) as H5.
  destruct (validate_addresses num_str s4 w4) as [[ok5 s5] w5]. simpl in H5.
  destruct ok5; simpl; [|congruence].
  rewrite split_data_input_file. congruence.
Qed.

Lemma save_validation_report_true env s p w w' :
  save_validation_report env s p w = (true, w') ->
  exists text, files w' = app (files w) [(p, TextFile text)].
Proof.
  unfold save_validation_report.
  destruct (writable env p); cbn [negb]; [|discriminate].
  destruct (df s) as [d|]; [|discriminate].
  destruct (get_column d ref_col) as [refs|]; [|discriminate].
  intros [= <-].
  destruct (validation_errors s); destruct (validation_warnings s);
    eexists; reflexivity.
Qed.

(** The three files of a successful [save_csvs]. *)
Lemma save_csvs_true env output_dir s w rp cp s' w' :
  save_csvs env output_dir s w = ((true, rp, cp), s', w') ->
  exists r c text,
    recipient_df s' = Some r
    /\ commodity_df s' = Some c
    /\ files w'
       = app (files w)
           [ (child (output_directory output_dir s) OUTPUT_RECIPIENT_FILENAME,
              CsvFile r None);
             (child (output_directory output_dir s) OUTPUT_COMMODITY_FILENAME,
              CsvFile c (Some "%.2f"));
             (child (output_directory output_dir s) OUTPUT_VALIDATION_REPORT,
              TextFile text) ].
Proof.
  unfold save_csvs, output_directory.
  set (dir := match output_dir with Some o => o | None => parent (input_file s) end).
  destruct (match output_dir with Some o => mkdir env o | None => true end);
    cbn [negb]; [|discriminate].
  destruct (commodity_df s) as [c0|]; [|discriminate].
  set (c := round_columns c0 numeric_cols).
  destruct (recipient_df (set_commodity s c)) as [r|] eqn:Hr; [|discriminate].
  destruct (writable env (child dir OUTPUT_RECIPIENT_FILENAME)); cbn [negb];
    [|discriminate].
  destruct (writable env (child dir OUTPUT_COMMODITY_FILENAME)); cbn [negb];
    [|discriminate].
  match goal with
  | |- context [save_validation_report env ?s0 ?p0 ?w0] =>
      pose proof (save_validation_report_true env s0 p0 w0) as R;
      destruct (save_validation_report env s0 p0 w0) as [reported w3]
  end.
  destruct reported; [|discriminate]. intros [= _ _ <- <-].
  destruct (R w3 eq_refl) as [text Ht].
  exists r, c, text. split; [exact Hr|]. split; [reflexivity|].
  rewrite Ht. cbn [files emit write_file]. rewrite <- !app_assoc. reflexivity.
Qed.

(** X21: a run that returns success has written exactly three files, in
    this order: the recipient table, the commodity table (with the float
    format of two decimals) and the validation report, named
    [IntFedExRec.csv], [IntFedExCom.csv] and [validation_report.txt], in the
    output directory given, or in the directory of the input file when
    none is given.  The two tables written are the ones the splitter
    holds. *)
Theorem process_success_writes_three_files env output_dir s w s' w' :
  process num_str fmt_2f env output_dir s w = (true, s', w') ->
  exists r c text,
    recipient_df s' = Some r
    /\ commodity_df s' = Some c
    /\ files w'
       = app (files w)
           [ (child (output_directory output_dir s) OUTPUT_RECIPIENT_FILENAME,
              CsvFile r None);
             (child (output_directory output_dir s) OUTPUT_COMMODITY_FILENAME,
              CsvFile c (Some "%.2f"));
             (child (output_directory output_dir s) OUTPUT_VALIDATION_REPORT,
              TextFile text) ].
Proof.
  intros Hrun.
  pose proof (before_emission_files num_str fmt_2f env s w) as Fb.
  pose proof (before_emission_input_file env s w) as Ib.
  destruct (before_emission num_str fmt_2f env s w) as [[ok s1] w1] eqn:B.
  cbn [fst snd] in Fb, Ib. destruct ok.
  - destruct (process_verdict_of_save num_str fmt_2f env output_dir s w s1 w1 B)
      as [w3 [P F3]].
    rewrite P in Hrun.
    destruct (save_csvs env output_dir s1 w1) as [[[[success rp] cp] s2] w2] eqn:Sv.
    cbn [fst snd] in Hrun, F3. injection Hrun as -> <- <-.
    destruct (save_csvs_true env output_dir s1 w1 rp cp s2 w2 Sv)
      as [r [c [text [Hr [Hc Hf]]]]].
    exists r, c, text. split; [exact Hr|]. split; [exact Hc|].
    rewrite F3, Hf, Fb. unfold output_directory. rewrite Ib. reflexivity.
  - rewrite (process_stops_before_emission num_str fmt_2f env output_dir s w s1 w1 B)
      in Hrun.
    discriminate Hrun.
Qed.

(** X22: emission is not all or nothing.  When the recipient file can be
    written and the commodity file cannot, [save_csvs] returns failure and
    empty paths, and the recipient file it wrote before stays written. *)
Theorem save_csvs_failure_keeps_recipient_file env output_dir s w r c :
  match output_dir with Some o => mkdir env o | None => true end = true ->
  recipient_df s = Some r ->
  commodity_df s = Some c ->
  writable env (child (output_directory output_dir s) OUTPUT_RECIPIENT_FILENAME) = true ->
  writable env (child (output_directory output_dir s) OUTPUT_COMMODITY_FILENAME) = false ->
  exists w',
    save_csvs env output_dir s w
    = ((false, "", ""), set_commodity s (round_columns c numeric_cols), w')
    /\ files w'
       = app (files w)
           [ (child (output_directory output_dir s) OUTPUT_RECIPIENT_FILENAME,
              CsvFile r None) ].
Proof.
  intros Hdir Hr Hc Wr Wc. unfold save_csvs, output_directory in *.
  rewrite Hdir, Hc. cbn [negb].
  replace (recipient_df (set_commodity s (round_columns c numeric_cols)))
    with (Some r) by (symmetry; exact Hr).
  rewrite Wr, Wc. cbn [negb]. eexists. split; reflexivity.
Qed.

End EmissionProperties.

(** ** Further sample runs *)

Lemma two_rows_complete : complete_numbers two_rows.
Proof.
  split.
  - unfold well_formed, two_rows. simpl. repeat constructor.
  - intros col [<-|[<-|[<-|[]]]]; eexists; split; reflexivity.
Defined.

(** X17 on the two rows. *)
Lemma calculate_declared_values_two_rows_columns :
  df (loaded two_rows) = Some two_rows
  /\ exists s' w' d',
       calculate_declared_values plain_number plain_2f (loaded two_rows) fresh
       = (true, s', w')
       /\ df s' = Some d'
       /\ column_names d' = [ref_col; qty_col; price_col; value_col]
       /\ nrows d' = 2%nat.
Proof.
  split; [reflexivity|].
  destruct (calculate_declared_values plain_number plain_2f (loaded two_rows) fresh)
    as [[ok s'] w'] eqn:Hrun.
  assert (Hok : ok = true) by (vm_compute in Hrun; congruence). subst ok.
  destruct (calculate_declared_values_keeps_columns plain_number plain_2f
              (loaded two_rows) fresh s' w' two_rows eq_refl Hrun)
    as [d' [Hd' [N [R _]]]].
  exists s', w', d'. split; [reflexivity|]. split; [exact Hd'|].
  split; [exact N | exact R].
Defined.

(** X18 on a table without its quantity column. *)
Lemma calculate_declared_values_no_quantity :
  df (loaded no_quantity) = Some no_quantity
  /\ get_column no_quantity qty_col = None
  /\ exists s' w',
       calculate_declared_values plain_number plain_2f (loaded no_quantity) fresh
       = (false, s', w')
       /\ issues s' = ([], []).
Proof.
  split; [reflexivity|]. split; [reflexivity|].
  destruct (calculate_declared_values_fails_on_missing_column plain_number plain_2f
              (loaded no_quantity) fresh no_quantity qty_col eq_refl
              (or_introl eq_refl) eq_refl) as [s' [w' [H [I _]]]].
  exists s', w'. split; [exact H | exact I].
Defined.

(** X19 on the two rows. *)
Lemma reconciliation_second_pass_two_rows :
  df (loaded two_rows) = Some two_rows
  /\ complete_numbers two_rows
  /\ exists s1 w1 w2,
       calculate_declared_values plain_number plain_2f (loaded two_rows) fresh
       = (true, s1, w1)
       /\ calculate_declared_values plain_number plain_2f s1 w1 = (true, s1, w2).
Proof.
  split; [reflexivity|]. split; [exact two_rows_complete|].
  destruct (calculate_declared_values plain_number plain_2f (loaded two_rows) fresh)
    as [[ok s1] w1] eqn:Hrun.
  assert (Hok : ok = true) by (vm_compute in Hrun; congruence). subst ok.
  destruct (reconciliation_second_pass_changes_nothing plain_number plain_2f
              (loaded two_rows) fresh s1 w1 two_rows eq_refl two_rows_complete Hrun)
    as [w2 H2].
  exists s1, w1, w2. split; [reflexivity | exact H2].
Defined.

(** X20 on the 31-column manifest. *)
Lemma split_data_manifest_31 :
  df (loaded manifest_31) = Some manifest_31
  /\ List.length (columns manifest_31) = 31%nat
  /\ exists r c w',
       split_data (loaded manifest_31) fresh = (true, set_split (loaded manifest_31) r c, w')
       /\ app (columns r) (columns c) = columns manifest_31.
Proof.
  split; [reflexivity|]. split; [reflexivity|].
  destruct (split_data_partitions_columns (loaded manifest_31) fresh manifest_31 eq_refl)
    as [r [c [w' [H [_ [P _]]]]]].
  exists r, c, w'. split; [exact H | exact (P eq_refl)].
Defined.

(** X21 on the manifest of 30 columns. *)
Lemma process_thirty_columns_three_files :
  exists s' w' r c text,
    process plain_number plain_2f (env_with manifest_30) None
      (new_splitter shipments_csv) fresh = (true, s', w')
    /\ files w'
       = [ (child "/data" "IntFedExRec.csv", CsvFile r None);
           (child "/data" "IntFedExCom.csv", CsvFile c (Some "%.2f"));
           (child "/data" "validation_report.txt", TextFile text) ].
Proof.
  destruct (process plain_number plain_2f (env_with manifest_30) None
              (new_splitter shipments_csv) fresh) as [[ok s'] w'] eqn:Hrun.
  assert (Hok : ok = true) by (vm_compute in Hrun; congruence). subst ok.
  destruct (process_success_writes_three_files plain_number plain_2f
              (env_with manifest_30) None (new_splitter shipments_csv) fresh s' w' Hrun)
    as [r [c [text [_ [_ Hf]]]]].
  exists s', w', r, c, text. split; [reflexivity | exact Hf].
Defined.

(** X22 on the split 31-column manifest, with the commodity file locked. *)
Lemma save_csvs_commodity_locked :
  exists w' c',
    save_csvs (env_commodity_locked manifest_31) (Some "/out") split_manifest_31 fresh
    = ((false, "", ""), set_commodity split_manifest_31 c', w')
    /\ map (fun f => path_str (fst f)) (files w') = ["/out/IntFedExRec.csv"].
Proof.
  destruct (save_csvs_failure_keeps_recipient_file
              (env_commodity_locked manifest_31) (Some "/out") split_manifest_31 fresh
              (iloc_columns 0 21 manifest_31) (iloc_columns 21 31 manifest_31)
              eq_refl eq_refl eq_refl eq_refl eq_refl) as [w' [H F]].
  exists w', (round_columns (iloc_columns 21 31 manifest_31) numeric_cols).
  split; [exact H|]. rewrite F. reflexivity.
Defined.

(** ** What cleaning does to every column *)

Section CleaningByColumn.

Variable num_str : number -> string.
Variable fmt_2f : number -> string.

Lemma get_apply_same f d c :
  get_column (apply_column f d c) c = option_map (map f) (get_column d c).
Proof.
  unfold apply_column. destruct (get_column d c) as [vs|] eqn:E.
  - rewrite get_set_same. reflexivity.
  - rewrite E. reflexivity.
Qed.

Lemma get_fold_apply f cols d c :
  NoDup cols ->
  get_column (fold_left (apply_column f) cols d) c
  = if existsb (String.eqb c) cols then option_map (map f) (get_column d c)
    else get_column d c.
Proof.
  intros N. revert d. induction N as [|k cols Hk N IH]; intros d; [reflexivity|].
  cbn [fold_left existsb]. rewrite IH.
  destruct (String.eqb c k) eqn:E.
  - apply String.eqb_eq in E. subst k. cbn [orb].
    rewrite (existsb_eqb_false c cols Hk). apply get_apply_same.
  - cbn [orb]. rewrite get_apply_other
      by (intros ->; rewrite String.eqb_refl in E; discriminate E).
    reflexivity.
Qed.

Lemma text_columns_NoDup : NoDup text_columns.
Proof.
  unfold text_columns.
  repeat (constructor; [cbn [In]; intros H;
                        repeat (destruct H as [H|H]; [discriminate H|]); exact H|]).
  constructor.
Qed.

Lemma postal_cols_NoDup : NoDup postal_cols.
Proof.
  unfold postal_cols.
  repeat (constructor; [cbn [In]; intros H;
                        repeat (destruct H as [H|H]; [discriminate H|]); exact H|]).
  constructor.
Qed.

(** The labels cleaning names fall in four classes with nothing in
    common. *)
Lemma cleaned_classes_disjoint (col : string) :
  (existsb (String.eqb col) text_columns = true ->
   String.eqb col phone_col = false
   /\ existsb (String.eqb col) postal_cols = false
   /\ String.eqb col country_col = false)
  /\ (String.eqb col phone_col = true ->
      existsb (String.eqb col) postal_cols = false
      /\ String.eqb col country_col = false)
  /\ (existsb (String.eqb col) postal_cols = true ->
      String.eqb col country_col = false).
Proof.
  split; [|split].
  - intros H. apply existsb_exists in H as [k [Hin E]].
    apply String.eqb_eq in E. subst k.
    cbn [In text_columns] in Hin.
    repeat (destruct Hin as [<- | Hin]; [repeat split; reflexivity|]).
    contradiction.
  - intros E. apply String.eqb_eq in E. subst col. split; reflexivity.
  - intros H. apply existsb_exists in H as [k [Hin E]].
    apply String.eqb_eq in E. subst k.
    cbn [In postal_cols] in Hin.
    repeat (destruct Hin as [<- | Hin]; [reflexivity|]). contradiction.
Qed.

(** X25: cleaning acts on the table column by column and by label only.
    In the thirteen text columns every cell becomes its cleaned text, in
    the phone column its cleaned phone number, in the two postal code
    columns its cleaned postal code, in the country column the code the
    mapper returns; a missing cell of these columns becomes a text.  Every
    other column is left exactly as it was. *)
Theorem clean_data_by_column s w d :
  df s = Some d ->
  exists d' w',
    clean_data num_str s w = (true, set_df s d', w')
    /\ forall col,
         get_column d' col
         = option_map (map (cleaned_cell num_str col)) (get_column d col).
Proof.
  intros Hd. unfold clean_data. rewrite Hd.
  match goal with
  | |- context [get_column ?x country_col] => set (d3 := x)
  end.
  assert (H3 : forall col,
             get_column d3 col
             = if existsb (String.eqb col) text_columns
               then option_map (map (fun v => Str (clean_text_field num_str v)))
                               (get_column d col)
               else if String.eqb col phone_col
               then option_map (map (fun v => Str (clean_phone_number num_str v)))
                               (get_column d col)
               else if existsb (String.eqb col) postal_cols
               then option_map (map (fun v => Str (clean_postal_code num_str v)))
                               (get_column d col)
               else get_column d col).
  { intros col. unfold d3.
    destruct (cleaned_classes_disjoint col) as [Dt [Dp _]].
    rewrite (get_fold_apply _ postal_cols _ col postal_cols_NoDup).
    destruct (existsb (String.eqb col) text_columns) eqn:T.
    - destruct (Dt eq_refl) as [P [Z _]]. rewrite Z.
      rewrite get_apply_other
        by (intros E; rewrite <- E, String.eqb_refl in P; discriminate P).
      rewrite (get_fold_apply _ text_columns _ col text_columns_NoDup), T. reflexivity.
    - destruct (String.eqb col phone_col) eqn:P.
      + destruct (Dp eq_refl) as [Z _]. rewrite Z.
        apply String.eqb_eq in P. subst col. rewrite get_apply_same.
        rewrite (get_fold_apply _ text_columns _ phone_col text_columns_NoDup), T.
        reflexivity.
      + rewrite get_apply_other
          by (intros E; rewrite <- E, String.eqb_refl in P; discriminate P).
        rewrite (get_fold_apply _ text_columns _ col text_columns_NoDup), T.
        reflexivity. }
  assert (Hc : get_column d3 country_col = get_column d country_col)
    by (rewrite H3; reflexivity).
  assert (Final : forall d4,
             (forall col, get_column d4 col
                          = if String.eqb col country_col
                            then option_map
                                   (map (fun v => Str (fst (standardize_country num_str v))))
                                   (get_column d country_col)
                            else get_column d3 col) ->
             forall col, get_column d4 col
                         = option_map (map (cleaned_cell num_str col)) (get_column d col)).
  { intros d4 H4 col. rewrite H4, H3. unfold cleaned_cell.
    destruct (cleaned_classes_disjoint col) as [Dt [Dp Dz]].
    destruct (String.eqb col country_col) eqn:C.
    - apply String.eqb_eq in C. subst col. reflexivity.
    - destruct (existsb (String.eqb col) text_columns); [reflexivity|].
      destruct (String.eqb col phone_col); [reflexivity|].
      destruct (existsb (String.eqb col) postal_cols); [reflexivity|].
      destruct (get_column d col) as [vs|]; [|reflexivity].
      cbn [option_map]. rewrite map_id. reflexivity. }
  destruct (get_column d3 country_col) as [original|] eqn:E.
  - eexists _, _. split; [reflexivity|]. apply Final. intros col.
    destruct (String.eqb col country_col) eqn:C.
    + apply String.eqb_eq in C. subst col. rewrite get_set_same, <- Hc.
      cbn [option_map]. rewrite !map_map. reflexivity.
    + apply get_set_other. intros Z. rewrite <- Z, String.eqb_refl in C. discriminate C.
  - eexists _, _. split; [reflexivity|]. apply Final. intros col.
    destruct (String.eqb col country_col) eqn:C; [|reflexivity].
    apply String.eqb_eq in C. subst col. rewrite <- Hc, E. reflexivity.
Qed.

(** X26: a run whose input file does not exist, or for which the reader
    raises, fails without loading anything and without writing a file: the
    splitter is returned as it was given. *)
Theorem process_fails_when_input_cannot_be_loaded env output_dir s w :
  path_exists env (input_file s) = false
  \/ (if String.eqb (Py.lower (suffix (input_file s))) ".csv"
      then read_csv env (input_file s) else read_excel env (input_file s)) = None ->
  exists w',
    process num_str fmt_2f env output_dir s w = (false, s, w')
    /\ files w' = files w.
Proof.
  intros H. unfold process, validate_input_file, load_data.
  destruct (path_exists env (input_file s)); cbn [negb];
    [|eexists; split; reflexivity].
  destruct H as [H | H]; [discriminate H|]. rewrite H.
  destruct (existsb (String.eqb (Py.lower (suffix (input_file s)))) valid_extensions);
    cbn [negb]; eexists; split; reflexivity.
Qed.

End CleaningByColumn.

(** X25 on the manifest of 30 columns. *)
Lemma clean_data_manifest_30_by_column :
  df (loaded manifest_30) = Some manifest_30
  /\ exists d' w',
       clean_data plain_number (loaded manifest_30) fresh
       = (true, set_df (loaded manifest_30) d', w')
       /\ get_column d' "ITEM DESCRIPTION (required)" = Some [Str "T-shirt printed"]
       /\ get_column d' qty_col = Some [Num (Int 2)].
Proof.
  split; [reflexivity|].
  destruct (clean_data_by_column plain_number (loaded manifest_30) fresh manifest_30
              eq_refl) as [d' [w' [H G]]].
  exists d', w'. split; [exact H|]. split; rewrite G; reflexivity.
Defined.

(** X26 on a file the reader cannot parse. *)
Lemma process_unreadable_file :
  (path_exists env_unreadable (input_file (new_splitter shipments_csv)) = false
   \/ (if String.eqb (Py.lower (suffix (input_file (new_splitter shipments_csv)))) ".csv"
       then read_csv env_unreadable (input_file (new_splitter shipments_csv))
       else read_excel env_unreadable (input_file (new_splitter shipments_csv))) = None)
  /\ exists w',
       process plain_number plain_2f env_unreadable None (new_splitter shipments_csv) fresh
       = (false, new_splitter shipments_csv, w')
       /\ files w' = [].
Proof.
  assert (H : path_exists env_unreadable (input_file (new_splitter shipments_csv)) = false
              \/ (if String.eqb (Py.lower (suffix (input_file (new_splitter shipments_csv))))
                                ".csv"
                  then read_csv env_unreadable (input_file (new_splitter shipments_csv))
                  else read_excel env_unreadable (input_file (new_splitter shipments_csv)))
                 = None) by (right; reflexivity).
  split; [exact H|].
  apply (process_fails_when_input_cannot_be_loaded plain_number plain_2f env_unreadable
           None (new_splitter shipments_csv) fresh H).
Defined.
